(** * Premier pick list: the per-store order pipeline of [store.py]

    A shallow embedding of the [Store] class: the order ledger
    ([parse_awaiting_shipment_order_data]), the SKU normaliser
    ([clean_and_normalize_order_data]), the pick-list builder
    ([create_pick_list]) and the multi-order customer report
    ([customers_with_multiple_orders]).

    Python values are modelled as follows.
    - [str] is [string]; characters are 8-bit, so comparison of strings is
      the byte-wise lexicographic one.
    - an exception is a value of [exn]; code that may raise returns
      [result].
    - the instance dictionary [skus_grouped_by_style_to_size_and_quantity]
      is an association list in insertion order (the order in which a
      Python dict is iterated); its values are either a list of strings or
      a string, as the source's comment on the attribute says.
    - the two MySQL tables of a store are lists of rows in table order. *)

From Stdlib Require Import String Ascii List Bool Arith NArith Lia.
From Stdlib Require Import DecimalString DecimalN.
From Stdlib Require Import Sorting.Permutation Sorting.Sorted.
Import ListNotations.
Open Scope list_scope.
Open Scope string_scope.

Set Implicit Arguments.

(** ** Exceptions *)

Inductive exn : Type :=
| KeyError (key : string)
| ValueError
| IndexError
| AttributeError
| DatabaseError.

Inductive result (A : Type) : Type :=
| Ok (a : A)
| Raise (e : exn).

Arguments Ok {A} a.
Arguments Raise {A} e.

Definition bind {A B} (r : result A) (k : A -> result B) : result B :=
  match r with
  | Ok a => k a
  | Raise e => Raise e
  end.

Notation "x <- r ;; k" := (bind r (fun x => k))
  (at level 61, r at next level, right associativity).
Notation "' pat <- r ;; k" := (bind r (fun x => match x with pat => k end))
  (at level 61, pat pattern, r at next level, right associativity).

(** ** Python string operations used by the source *)

Module Py.

Definition dash : ascii := "-"%char.

(** [s.split('-')]: never empty, one more field than there are dashes. *)
Fixpoint split (s : string) : list string :=
  match s with
  | EmptyString => [EmptyString]
  | String c rest =>
      if Ascii.eqb c dash then EmptyString :: split rest
      else match split rest with
           | [] => [String c EmptyString]
           | w :: ws => String c w :: ws
           end
  end.

(** [s[:n]] *)
Definition prefix (n : nat) (s : string) : string := substring 0 n s.

(** [s[-n:]] for [n > 0]: the last [n] characters, all of [s] when it is
    shorter. *)
Definition suffix (n : nat) (s : string) : string :=
  substring (String.length s - n) n s.

(** [s[-1]]: raises IndexError on the empty string. *)
Definition last (s : string) : result string :=
  match s with
  | EmptyString => Raise IndexError
  | _ => Ok (suffix 1 s)
  end.

(** [str(n)] for a non-negative integer. *)
Definition str (n : N) : string := NilEmpty.string_of_uint (N.to_uint n).

(** [int(s)] on a string of decimal digits; anything else is a
    ValueError here.  (Python's [int] also accepts a sign, surrounding
    blanks and underscores; the strings this program converts are the
    images of [str] or are rejected before [int] is reached.) *)
Definition int (s : string) : result N :=
  match s with
  | EmptyString => Raise ValueError
  | _ => match NilEmpty.uint_of_string s with
         | Some d => Ok (N.of_uint d)
         | None => Raise ValueError
         end
  end.

(** A string without the separator. *)
Fixpoint no_dash (s : string) : bool :=
  match s with
  | EmptyString => true
  | String c rest => negb (Ascii.eqb c dash) && no_dash rest
  end.

End Py.

(** ** The grouping dictionary *)

Inductive value : Type :=
| VList (l : list string)
| VStr (s : string).

Definition dict : Type := list (string * value).

Fixpoint dict_get (k : string) (d : dict) : option value :=
  match d with
  | [] => None
  | (k', v) :: rest => if String.eqb k k' then Some v else dict_get k rest
  end.

(** [d[k] = v]: an existing key keeps its position, a new key goes last. *)
Fixpoint dict_set (k : string) (v : value) (d : dict) : dict :=
  match d with
  | [] => [(k, v)]
  | (k', v') :: rest =>
      if String.eqb k k' then (k, v) :: rest else (k', v') :: dict_set k v rest
  end.

(** ** [clean_and_normalize_order_data] *)

Module Normalizer.

(** The statement pair repeated in every grouped branch:
    [if key not in d: d[key] = [entry] else: d[key].append(entry)].
    [append] on a [str] value raises AttributeError. *)
Definition group_append (key entry : string) (d : dict) : result dict :=
  match dict_get key d with
  | None => Ok (dict_set key (VList [entry]) d)
  | Some (VList l) => Ok (dict_set key (VList (l ++ [entry])%list) d)
  | Some (VStr _) => Raise AttributeError
  end.

(** [self.skus_grouped_by_style_to_size_and_quantity[SKU] = str(quantity)] *)
Definition set_ungrouped (SKU : string) (quantity : N) (d : dict) : dict :=
  dict_set SKU (VStr (Py.str quantity)) d.

(** [a, b, c = SKU.split('-')] *)
Definition unpack3 (l : list string) : result (string * string * string) :=
  match l with
  | [a; b; c] => Ok (a, b, c)
  | _ => Raise ValueError
  end.

(** [a, b, c, d = SKU.split('-')] *)
Definition unpack4 (l : list string)
  : result (string * string * string * string) :=
  match l with
  | [a; b; c; d] => Ok (a, b, c, d)
  | _ => Raise ValueError
  end.

(** [style[-3:] == 'NEW' or style[-1] == 'P'], left to right. *)
Definition has_variant_suffix (style : string) : result bool :=
  if String.eqb (Py.suffix 3 style) "NEW" then Ok true
  else c <- Py.last style ;; Ok (String.eqb c "P").

Definition entry (size : string) (quantity : N) : string :=
  size ++ "-" ++ Py.str quantity.

(** The body of the [try] block for one row of the grouped query. *)
Definition try_body (SKU : string) (quantity : N) (d : dict) : result dict :=
  let sku_array := Py.split SKU in
  let brand := hd EmptyString sku_array in
  if String.eqb brand "PREM" then
    if Nat.eqb (List.length sku_array) 3 then
      '(premiere, style, size) <- unpack3 (Py.split SKU) ;;
      cut <- has_variant_suffix style ;;
      let style := if (cut : bool) then Py.prefix 3 style else style in
      let premiere_and_style := premiere ++ "-" ++ style in
      group_append premiere_and_style (entry size quantity) d
    else if Nat.eqb (List.length sku_array) 4 then
      '(premiere, index_1, index_2, size) <- unpack4 (Py.split SKU) ;;
      let style := index_1 ++ "-" ++ index_2 in
      let premiere_and_style := premiere ++ "-" ++ style in
      group_append premiere_and_style (entry size quantity) d
    else Ok d
  else if String.eqb brand "PremJeans" || String.eqb brand "PremiereJeans" then
    '(jean, color, size) <- unpack3 (Py.split SKU) ;;
    let jean := if String.eqb jean "PremiereJeans" then "PremJeans" else jean in
    let jean_and_color := jean ++ "-" ++ color in
    group_append jean_and_color (entry size quantity) d
  else if String.eqb brand "PremTee" || String.eqb brand "PremiereLSTee" then
    if Nat.eqb (List.length sku_array) 3 then
      '(shirt, style, size) <- unpack3 (Py.split SKU) ;;
      let size := if String.eqb size "XXL" then "2XL" else size in
      let style_and_brand := style ++ "-" ++ shirt in
      group_append style_and_brand (entry size quantity) d
    else if Nat.eqb (List.length sku_array) 4 then
      '(shirt, index_1, index_2, size) <- unpack4 (Py.split SKU) ;;
      let size := if String.eqb size "XXL" then "2XL" else size in
      let brand_style_color := shirt ++ "-" ++ index_2 ++ "-" ++ index_1 in
      group_append brand_style_color (entry size quantity) d
    else Ok d
  else Ok (set_ungrouped SKU quantity d).

(** One iteration of the loop over the query rows: the [try] block and
    its [except Exception] handler.  The second component collects what
    the handler prints. *)
Definition step (st : dict * list exn) (row : string * N) : dict * list exn :=
  let '(d, out) := st in
  let '(SKU, quantity) := row in
  match try_body SKU quantity d with
  | Ok d' => (d', out)
  | Raise e => (set_ungrouped SKU quantity d, (out ++ [e])%list)
  end.

(** The loop of [clean_and_normalize_order_data] over the rows
    [(sku, total quantity)] returned by the grouped query. *)
Definition normalize_rows (rows : list (string * N)) (d : dict)
  : dict * list exn :=
  fold_left step rows (d, []).

End Normalizer.

(** ** Python's stable [list.sort] *)

Section StableSort.

Variable A : Type.
Variable le : A -> A -> bool.

(** [x] goes in front of the first element it does not exceed, hence in
    front of its equals that stood behind it: the sort is stable. *)
Fixpoint insert (x : A) (l : list A) : list A :=
  match l with
  | [] => [x]
  | y :: l' => if le x y then x :: l else y :: insert x l'
  end.

Definition sort (l : list A) : list A := fold_right insert [] l.

(** The comparison as a relation, for [Sorted]. *)
Definition le_prop (a b : A) : Prop := le a b = true.

End StableSort.

(** ** [create_pick_list] *)

Module PickList.

Definition nl : string := String (ascii_of_nat 10) EmptyString.

(** The comparator dictionary of the source. *)
Definition desired_order_table : list (string * nat) :=
  [("SM", 1); ("ME", 2); ("LR", 3); ("XL", 4); ("2X", 5); ("3X", 6);
   ("4X", 7); ("5X", 8); ("6X", 9); ("7X", 10); ("8X", 11); ("32", 12);
   ("34", 13); ("36", 14); ("38", 15); ("40", 16); ("42", 17); ("44", 18);
   ("46", 19); ("48", 20); ("50", 21)].

Fixpoint lookup (k : string) (t : list (string * nat)) : option nat :=
  match t with
  | [] => None
  | (k', r) :: t' => if String.eqb k k' then Some r else lookup k t'
  end.

(** [desired_order[k]] *)
Definition desired_order (k : string) : result nat :=
  match lookup k desired_order_table with
  | Some r => Ok r
  | None => Raise (KeyError k)
  end.

(** The keys [desired_order[x[:2]]] of a list, computed front to back
    before any element moves; the first missing key raises. *)
Fixpoint sort_keys (l : list string) : result (list (nat * string)) :=
  match l with
  | [] => Ok []
  | x :: rest =>
      k <- desired_order (Py.prefix 2 x) ;;
      ks <- sort_keys rest ;;
      Ok ((k, x) :: ks)
  end.

Definition key_le (a b : nat * string) : bool := Nat.leb (fst a) (fst b).

(** [value.sort(key=lambda x: desired_order[x[:2]])] *)
Definition sort_by_size (l : list string) : result (list string) :=
  ks <- sort_keys l ;; Ok (map snd (sort key_le ks)).

(** The loop [for index in range(len(value))] that rewrites the entries
    in place.  An entry that does not split in two, or whose quantity is
    no number, raises; the entries in front of it are already rewritten
    then. *)
Fixpoint rewrite_entries (l : list string) : list string * option exn :=
  match l with
  | [] => ([], None)
  | x :: rest =>
      match Py.split x with
      | [size; quant] =>
          match Py.int quant with
          | Raise e => (x :: rest, Some e)
          | Ok n =>
              let y := if N.eqb n 1 then size
                       else size ++ " (" ++ quant ++ ")" in
              let '(rest', r) := rewrite_entries rest in
              (y :: rest', r)
          end
      | _ => (x :: rest, Some ValueError)
      end
  end.

(** The second loop: every entry but the last is followed by [', ']. *)
Fixpoint join_sizes (key : string) (value : list string) : string :=
  match value with
  | [] => key
  | [x] => key ++ x
  | x :: rest => join_sizes (key ++ x ++ ", ") rest
  end.

(** The body of the loop over [items()]: the value as it is left in the
    dictionary, and the rendered line or the exception raised. *)
Definition render_group (key : string) (v : value) : value * result string :=
  match v with
  | VList value =>
      match sort_by_size value with
      | Raise e => (VList value, Raise e)
      | Ok sorted =>
          match rewrite_entries sorted with
          | (value', Some e) => (VList value', Raise e)
          | (value', None) =>
              (VList value', Ok (join_sizes (key ++ " -> ") value' ++ nl))
          end
      end
  | VStr value =>
      match Py.int value with
      | Raise e => (v, Raise e)
      | Ok n =>
          (v, Ok (if N.ltb 1 n then key ++ " ... (" ++ value ++ ")" ++ nl
                  else key ++ nl))
      end
  end.

(** The loop over the dictionary: the dictionary as mutated so far and
    [pick_list], or the exception that ended the loop. *)
Fixpoint render_groups (d : dict) : dict * result (list string) :=
  match d with
  | [] => ([], Ok [])
  | (k, v) :: rest =>
      match render_group k v with
      | (v', Raise e) => ((k, v') :: rest, Raise e)
      | (v', Ok line) =>
          let '(rest', r) := render_groups rest in
          ((k, v') :: rest', lines <- r ;; Ok (line :: lines))
      end
  end.

(** The result of a call: the dictionary afterwards, the content of the
    file [__ORDERS [store]__.txt] afterwards, and the exception raised,
    if any. *)
Record outcome : Type := {
  grouping : dict;
  orders_file : string;
  raised : option exn
}.

(** [create_pick_list]: the file is opened with mode ['w'] only after the
    lines are built and sorted, so an exception leaves it as it was. *)
Definition create_pick_list (d : dict) (file : string) : outcome :=
  match render_groups d with
  | (d', Raise e) => {| grouping := d'; orders_file := file; raised := Some e |}
  | (d', Ok pick_list) =>
      {| grouping := d';
         orders_file := String.concat "" (sort String.leb pick_list);
         raised := None |}
  end.

End PickList.

(** ** The ledger: [parse_awaiting_shipment_order_data] and the queries *)

Module Ledger.

(** A row of [{store}_order]. [is_new] holds 1 ([true]) or 0. *)
Record order_row : Type := {
  order_number : string;
  customer_name : string;
  order_date : string;
  is_new : bool
}.

(** A row of [{store}_item]. *)
Record item_row : Type := {
  ord_num : string;
  sku : string;
  quantity : N
}.

Record ledger : Type := {
  order_table : list order_row;
  item_table : list item_row
}.

(** An element of [order['items']]. *)
Record api_item : Type := {
  item_sku : string;
  item_name : string;
  item_quantity : N
}.

(** An element of [awaiting_shipment_orders_list].  [orderDate] stands
    for the timestamp after the conversion to [datetime], which the
    source performs before it touches the database. *)
Record api_order : Type := {
  orderNumber : string;
  billTo_name : string;
  orderDate : string;
  items : list api_item
}.

(** An element of [self.log]. *)
Record log_dict : Type := {
  log_order_number : string;
  log_customer : string;
  log_date : string;
  log_is_new : bool;
  log_item_list : list (string * N)
}.

Section Parse.

(** [sku_dict] of the module [sku_conversions], which is not part of
    the sources at hand: the table of obsolete SKUs and their
    revisions. *)
Variable sku_dict : string -> option string.

(** Whether the database accepts an [INSERT] into the item table;
    [cursor.execute] raises a [mysql.connector.Error] when it does
    not. *)
Variable item_accepted : item_row -> bool.

(** [if sku in sku_dict: sku = sku_dict[sku]] and
    [if sku == '': sku = name] *)
Definition revised_sku (it : api_item) : string :=
  let sku := match sku_dict (item_sku it) with
             | Some s => s
             | None => item_sku it
             end in
  if String.eqb sku "" then item_name it else sku.

Definition has_number (n : string) (r : order_row) : bool :=
  String.eqb (order_number r) n.

(** [SELECT * FROM {store}_order WHERE order_number = %s] and
    [fetchone()] *)
Definition select_order (n : string) (L : ledger) : option order_row :=
  find (has_number n) (order_table L).

(** [UPDATE {store}_order SET is_new = 0 WHERE order_number = %s] *)
Definition flag_row (n : string) (r : order_row) : order_row :=
  if has_number n r
  then {| order_number := order_number r;
          customer_name := customer_name r;
          order_date := order_date r;
          is_new := false |}
  else r.

Definition update_not_new (n : string) (L : ledger) : ledger :=
  {| order_table := map (flag_row n) (order_table L);
     item_table := item_table L |}.

(** [INSERT INTO {store}_order ... VALUES (%s, %s, %s, 1)] *)
Definition insert_order (o : api_order) (L : ledger) : ledger :=
  {| order_table :=
       (order_table L ++
          [{| order_number := orderNumber o;
              customer_name := billTo_name o;
              order_date := orderDate o;
              is_new := true |}])%list;
     item_table := item_table L |}.

(** [INSERT INTO {store}_item (ord_num, sku, quantity)] *)
Definition insert_item (r : item_row) (L : ledger) : result ledger :=
  if item_accepted r
  then Ok {| order_table := order_table L;
             item_table := (item_table L ++ [r])%list |}
  else Raise DatabaseError.

(** The loop over the items of an order that is already known. *)
Definition logged_items (its : list api_item) : list (string * N) :=
  map (fun it => (revised_sku it, item_quantity it)) its.

(** The loop over the items of a new order.  Every [execute] is
    followed by its own [commit], so the ledger returned with an
    exception is the one the database holds. *)
Fixpoint insert_items (n : string) (its : list api_item) (L : ledger)
         (curr : list (string * N))
  : ledger * result (list (string * N)) :=
  match its with
  | [] => (L, Ok curr)
  | it :: rest =>
      let sku := revised_sku it in
      match insert_item {| ord_num := n; sku := sku;
                           quantity := item_quantity it |} L with
      | Raise e => (L, Raise e)
      | Ok L' =>
          insert_items n rest L' (curr ++ [(sku, item_quantity it)])%list
      end
  end.

(** The body of the loop over the fetched orders. *)
Definition parse_order (o : api_order) (L : ledger)
  : ledger * result log_dict :=
  let order_num := orderNumber o in
  match select_order order_num L with
  | Some _ =>
      (update_not_new order_num L,
       Ok {| log_order_number := order_num;
             log_customer := billTo_name o;
             log_date := orderDate o;
             log_is_new := false;
             log_item_list := logged_items (items o) |})
  | None =>
      match insert_items order_num (items o) (insert_order o L) [] with
      | (L', Raise e) => (L', Raise e)
      | (L', Ok curr) =>
          (L', Ok {| log_order_number := order_num;
                     log_customer := billTo_name o;
                     log_date := orderDate o;
                     log_is_new := true;
                     log_item_list := curr |})
      end
  end.

(** [parse_awaiting_shipment_order_data]: the ledger and [self.log]
    afterwards, and the exception that ended the loop, if any. *)
Fixpoint parse_awaiting_shipment_order_data
         (orders : list api_order) (L : ledger) (log : list log_dict)
  : ledger * list log_dict * option exn :=
  match orders with
  | [] => (L, log, None)
  | o :: rest =>
      match parse_order o L with
      | (L', Raise e) => (L', log, Some e)
      | (L', Ok entry) =>
          parse_awaiting_shipment_order_data rest L' (log ++ [entry])%list
      end
  end.

End Parse.

(** *** The query of [clean_and_normalize_order_data] *)

(** The inner join restricted to [is_new = 1]: one row per pair of an
    item and a new order with the item's number. *)
Definition new_item_rows (L : ledger) : list (string * N) :=
  flat_map
    (fun it =>
       map (fun _ => (sku it, quantity it))
           (filter (fun o => String.eqb (ord_num it) (order_number o)
                             && is_new o)
                   (order_table L)))
    (item_table L).

(** [GROUP BY sku] with [SUM(quantity)]: one row per distinct SKU, here
    in the order of first occurrence. *)
Fixpoint add_to_group (s : string) (q : N) (acc : list (string * N))
  : list (string * N) :=
  match acc with
  | [] => [(s, q)]
  | (s', q') :: acc' =>
      if String.eqb s s' then (s', (q' + q)%N) :: acc'
      else (s', q') :: add_to_group s q acc'
  end.

Definition group_by_sku (rows : list (string * N)) : list (string * N) :=
  fold_left (fun acc r => add_to_group (fst r) (snd r) acc) rows [].

Definition grouped_new_items (L : ledger) : list (string * N) :=
  group_by_sku (new_item_rows L).

(** [clean_and_normalize_order_data] *)
Definition clean_and_normalize_order_data (L : ledger) (d : dict)
  : dict * list exn :=
  Normalizer.normalize_rows (grouped_new_items L) d.

(** *** [customers_with_multiple_orders] *)

(** [COUNT(customer_name)] over the rows with [is_new = 1]. *)
Definition new_order_count (c : string) (L : ledger) : nat :=
  List.length
    (filter (fun o => is_new o && String.eqb (customer_name o) c)
            (order_table L)).

(** Membership in the temporary table [customer_with_multiple_order]:
    the groups of new orders [HAVING name_count > 1]. *)
Definition in_temporary_table (c : string) (L : ledger) : bool :=
  Nat.ltb 1 (new_order_count c L).

(** The second [SELECT]: customer name and order number of every row of
    the order table whose customer is in the temporary table. *)
Definition selected_rows (L : ledger) : list (string * string) :=
  map (fun o => (customer_name o, order_number o))
      (filter (fun o => in_temporary_table (customer_name o) L)
              (order_table L)).

(** The loop filling [order_info_dict]. *)
Fixpoint add_order (c n : string) (d : list (string * list string))
  : list (string * list string) :=
  match d with
  | [] => [(c, [n])]
  | (c', ns) :: d' =>
      if String.eqb c c' then (c', (ns ++ [n])%list) :: d'
      else (c', ns) :: add_order c n d'
  end.

Definition order_info_dict (L : ledger) : list (string * list string) :=
  fold_left (fun d row => add_order (fst row) (snd row) d)
            (selected_rows L) [].

Definition customer_block (entry : string * list string) : string :=
  fst entry ++ " - " ++ Py.str (N.of_nat (List.length (snd entry)))
    ++ " Orders:" ++ PickList.nl
    ++ String.concat "" (snd entry)
    ++ PickList.nl ++ PickList.nl.

Definition no_customers : string := "NO CUSTOMERS WITH MULTIPLE ORDERS".

(** What [customers_with_multiple_orders] appends to the file. *)
Definition customers_report (L : ledger) : string :=
  PickList.nl ++ "CUSTOMERS WITH MORE THAN ONE ORDER:"
    ++ PickList.nl ++ PickList.nl
    ++ match order_info_dict L with
       | [] => no_customers
       | d => String.concat "" (map customer_block d)
       end.

Definition customers_with_multiple_orders (L : ledger) (file : string)
  : string :=
  file ++ customers_report L.

(** *** [orders_containing_an_item_having_a_quantity_greater_than_one] *)

(** The rows copied into [order_with_multiple_quantity]. *)
Definition multiple_quantity_rows (L : ledger)
  : list (string * string * string * N) :=
  flat_map
    (fun it =>
       map (fun o => (order_number o, customer_name o, sku it, quantity it))
           (filter (fun o => String.eqb (ord_num it) (order_number o)
                             && is_new o && N.ltb 1 (quantity it))
                   (order_table L)))
    (item_table L).

End Ledger.

(** ** The quantity report and the order log *)

Module Reports.
Import Ledger.

(** One line of [orders_containing_an_item_having_a_quantity_greater_than_one]. *)
Definition quantity_line (row : string * string * string * N) : string :=
  let '(order_num, customer, sku, quantity) := row in
  order_num ++ " - " ++ customer ++ " - " ++ sku
    ++ " (" ++ Py.str quantity ++ ")" ++ PickList.nl.

Definition no_orders : string :=
  "NO ORDERS CONTAINING AN ITEM HAVING A QUANTITY GREATER THAN ONE".

(** What the method appends to the file. *)
Definition quantity_report (L : ledger) : string :=
  PickList.nl ++ "ORDERS WITH MORE THAN ONE ITEM QUANTITY:"
    ++ PickList.nl ++ PickList.nl
    ++ match multiple_quantity_rows L with
       | [] => no_orders
       | rows => String.concat "" (map quantity_line rows)
       end.

Definition orders_containing_an_item_having_a_quantity_greater_than_one
           (L : ledger) (file : string) : string :=
  file ++ quantity_report L.

(** An item line of the log: the quantity is shown when it exceeds one. *)
Definition item_line (it : string * N) : string :=
  if N.ltb 1 (snd it)
  then fst it ++ " (" ++ Py.str (snd it) ++ ")" ++ PickList.nl
  else fst it ++ PickList.nl.

(** ['-'*30] *)
Definition rule : string := "------------------------------".

Section Log.

(** [date.strftime("%m/%d/%Y %I:%M:%S")] of the timestamp a log entry
    carries. *)
Variable strftime : string -> string.

(** The block the log gets for one order. *)
Definition order_block (e : log_dict) : string :=
  (if log_is_new e then "" else "=== NOT A NEW ORDER ===" ++ PickList.nl)
    ++ log_order_number e ++ PickList.nl
    ++ log_customer e ++ PickList.nl
    ++ strftime (log_date e) ++ PickList.nl
    ++ String.concat "" (map item_line (log_item_list e))
    ++ rule ++ PickList.nl.

(** [awaiting_shipment_order_log]: the file is created anew with the
    header, [now] being the formatted clock reading, and one block is
    appended per entry of [self.log]. *)
Definition awaiting_shipment_order_log
           (store_name now : string) (log : list log_dict) : string :=
  store_name ++ " LOG" ++ PickList.nl
    ++ now ++ PickList.nl ++ PickList.nl
    ++ String.concat "" (map order_block log).

End Log.

End Reports.

(** ** The conversion of [orderDate] and its format in the log *)

Module OrderDate.

(** [s.split(sep)] for a separator of one character. *)
Fixpoint split_on (sep : ascii) (s : string) : list string :=
  match s with
  | EmptyString => [EmptyString]
  | String c rest =>
      if Ascii.eqb c sep then EmptyString :: split_on sep rest
      else match split_on sep rest with
           | [] => [String c EmptyString]
           | w :: ws => String c w :: ws
           end
  end.

Record datetime : Type := {
  year : N;
  month : N;
  day : N;
  hour : N;
  minute : N;
  second : N
}.

Definition is_leap (y : N) : bool :=
  N.eqb (y mod 4) 0 && (negb (N.eqb (y mod 100) 0) || N.eqb (y mod 400) 0).

Definition days_in_month (y m : N) : N :=
  match m with
  | 1 | 3 | 5 | 7 | 8 | 10 | 12 => 31
  | 4 | 6 | 9 | 11 => 30
  | 2 => if is_leap y then 29 else 28
  | _ => 0
  end%N.

(** [datetime.datetime(year=..., ..., second=...)]: a field out of range
    raises ValueError. *)
Definition make_datetime (y mo d h mi s : N) : result datetime :=
  if N.leb 1 y && N.leb y 9999
     && N.leb 1 mo && N.leb mo 12
     && N.leb 1 d && N.leb d (days_in_month y mo)
     && N.leb h 23 && N.leb mi 59 && N.leb s 59
  then Ok {| year := y; month := mo; day := d;
             hour := h; minute := mi; second := s |}
  else Raise ValueError.

(** [a, b = s.split(...)] *)
Definition unpack2 (l : list string) : result (string * string) :=
  match l with
  | [a; b] => Ok (a, b)
  | _ => Raise ValueError
  end.

(** The conversion at the head of the loop of
    [parse_awaiting_shipment_order_data]: the fraction is cut off, date
    and time are taken apart and their six fields converted. *)
Definition order_datetime (orderDate : string) : result datetime :=
  let order_date := hd EmptyString (split_on "." orderDate) in
  '(date, time) <- unpack2 (split_on "T" order_date) ;;
  '(year, month, day) <- Normalizer.unpack3 (split_on "-" date) ;;
  '(hour, minute, second) <- Normalizer.unpack3 (split_on ":" time) ;;
  y <- Py.int year ;;
  mo <- Py.int month ;;
  d <- Py.int day ;;
  h <- Py.int hour ;;
  mi <- Py.int minute ;;
  s <- Py.int second ;;
  make_datetime y mo d h mi s.

(** Two digits, as [%m], [%d], [%I], [%M] and [%S] print them. *)
Definition pad2 (n : N) : string :=
  if N.ltb n 10 then "0" ++ Py.str n else Py.str n.

(** The hour on the twelve-hour clock, [%I]. *)
Definition hour12 (h : N) : N :=
  if N.eqb (h mod 12) 0 then 12%N else (h mod 12)%N.

(** [date.strftime("%m/%d/%Y %I:%M:%S")] as the log prints an order's
    date; the year is printed as it is, which is what [%Y] gives for the
    four-digit years. *)
Definition strftime_log (t : datetime) : string :=
  pad2 (month t) ++ "/" ++ pad2 (day t) ++ "/" ++ Py.str (year t)
    ++ " " ++ pad2 (hour12 (hour t)) ++ ":" ++ pad2 (minute t)
    ++ ":" ++ pad2 (second t).

End OrderDate.

(** ** [refresh_stores] *)

Module Refresh.

(** The value of [response.json()['success']]. *)
Inductive json : Type :=
| JString (s : string)
| JBool (b : bool)
| JNull
| JNumber (n : N).

(** What the function returns: [True], [False], or [None] when it falls
    off its end. *)
Inductive returned : Type :=
| PyTrue
| PyFalse
| PyNone.

(** [v == 'true'] *)
Definition is_true_text (v : json) : bool :=
  match v with
  | JString s => String.eqb s "true"
  | _ => false
  end.

(** The chain of [and]: the responses are read in order and the first one
    that differs from ['true'] ends the reading. *)
Fixpoint all_success (responses : list (result json)) : result bool :=
  match responses with
  | [] => Ok true
  | r :: rest =>
      v <- r ;;
      if is_true_text v then all_success rest else Ok false
  end.

(** [refresh_stores], given what reading [json()['success']] yields for
    the responses of amazon, ebay, etsy and the three websites.  The
    second component tells whether the function slept for
    [refresh_time]. *)
Definition refresh_stores (amazon ebay etsy website_one website_two
                             website_three : result json)
  : returned * bool :=
  match all_success [amazon; ebay; etsy; website_one; website_two;
                     website_three] with
  | Ok true => (PyTrue, true)
  | Ok false => (PyNone, false)
  | Raise _ => (PyFalse, false)
  end.

(** [if import_stores:] *)
Definition truthy (r : returned) : bool :=
  match r with
  | PyTrue => true
  | _ => false
  end.

End Refresh.

(** ** The loop over the stores in [main.py] *)

Module Main.
Import Ledger.

(** What a store brings to a run and what the run leaves: the orders the
    platform returns, the store's tables, its two files and the clock
    reading for the log header. *)
Record store : Type := {
  store_name : string;
  awaiting_shipment_orders_list : list api_order;
  tables : ledger;
  orders_txt : string;
  log_txt : string;
  generated_at : string
}.

(** How the calls for one store end: all seven return, a
    [mysql.connector.Error] reaches the handler of [main.py], or another
    exception leaves the program. *)
Inductive ending : Type :=
| Completed
| DatabaseStopped (e : exn)
| Crashed (e : exn).

Definition is_database_error (e : exn) : bool :=
  match e with
  | DatabaseError => true
  | _ => false
  end.

Definition ending_of (e : exn) : ending :=
  if is_database_error e then DatabaseStopped e else Crashed e.

Section Run.

Variable sku_dict : string -> option string.
Variable item_accepted : item_row -> bool.
Variable strftime : string -> string.

(** The body of the loop: a fresh [Store] object, whose dictionary and
    log start empty, and the calls from
    [parse_awaiting_shipment_order_data] to [awaiting_shipment_order_log]. *)
Definition run_store (s : store) : store * ending :=
  match parse_awaiting_shipment_order_data
          sku_dict item_accepted (awaiting_shipment_orders_list s)
          (tables s) [] with
  | (L, _, Some e) =>
      ({| store_name := store_name s;
          awaiting_shipment_orders_list := awaiting_shipment_orders_list s;
          tables := L;
          orders_txt := orders_txt s;
          log_txt := log_txt s;
          generated_at := generated_at s |}, ending_of e)
  | (L, log, None) =>
      let d := fst (clean_and_normalize_order_data L []) in
      let built := PickList.create_pick_list d (orders_txt s) in
      match PickList.raised built with
      | Some e =>
          ({| store_name := store_name s;
              awaiting_shipment_orders_list := awaiting_shipment_orders_list s;
              tables := L;
              orders_txt := PickList.orders_file built;
              log_txt := log_txt s;
              generated_at := generated_at s |}, ending_of e)
      | None =>
          ({| store_name := store_name s;
              awaiting_shipment_orders_list := awaiting_shipment_orders_list s;
              tables := L;
              orders_txt :=
                Reports.orders_containing_an_item_having_a_quantity_greater_than_one
                  L (customers_with_multiple_orders
                       L (PickList.orders_file built));
              log_txt :=
                Reports.awaiting_shipment_order_log
                  strftime (store_name s) (generated_at s) log;
              generated_at := generated_at s |}, Completed)
      end
  end.

(** [for s in STORES]: the [try] encloses the whole loop, so the first
    store that does not complete ends it. *)
Fixpoint run_stores (stores : list store) : list store * ending :=
  match stores with
  | [] => ([], Completed)
  | s :: rest =>
      match run_store s with
      | (s', Completed) =>
          let '(rest', e) := run_stores rest in (s' :: rest', e)
      | (s', e) => (s' :: rest, e)
      end
  end.

(** The program: the stores are processed only if [refresh_stores]
    returned a true value. *)
Definition main (import_stores : Refresh.returned) (stores : list store)
  : list store * ending :=
  if Refresh.truthy import_stores then run_stores stores
  else (stores, Completed).

End Run.

End Main.

(** * The specification's vocabulary *)

(** A run of decimal digits, as in a style number. *)
Definition is_digit (c : ascii) : bool :=
  Nat.leb 48 (nat_of_ascii c) && Nat.leb (nat_of_ascii c) 57.

Fixpoint all_digits (s : string) : bool :=
  match s with
  | EmptyString => true
  | String c rest => is_digit c && all_digits rest
  end.

(** ** Grouping maps as the specification describes them

    A group is either a list of (size, quantity) entries or a scalar
    quantity.  The dictionary the normaliser builds stores an entry as the
    string [size-quantity] and a scalar as the decimal string of the
    quantity. *)

Module Spec.

Inductive group : Type :=
| Sized (entries : list (string * N))
| Unsized (quantity : N).

Definition grouping_map : Type := list (string * group).

Definition encode_entry (e : string * N) : string :=
  Normalizer.entry (fst e) (snd e).

Definition encode_group (g : group) : value :=
  match g with
  | Sized es => VList (map encode_entry es)
  | Unsized q => VStr (Py.str q)
  end.

Definition encode (m : grouping_map) : dict :=
  map (fun kg => (fst kg, encode_group (snd kg))) m.

(** The size comparator: the class of a label is its first two
    characters, its rank the position of the class in the table. *)
Definition recognized (size : string) : bool :=
  match PickList.lookup (Py.prefix 2 size) PickList.desired_order_table with
  | Some _ => true
  | None => false
  end.

(** A class that is no key of the table. *)
Definition unknown (key : string) : Prop :=
  PickList.lookup key PickList.desired_order_table = None.

Definition size_rank (size : string) : nat :=
  match PickList.lookup (Py.prefix 2 size) PickList.desired_order_table with
  | Some r => r
  | None => 0
  end.

Definition size_le (a b : string * N) : bool :=
  Nat.leb (size_rank (fst a)) (size_rank (fst b)).

(** An entry with the key the sort computes for it. *)
Definition keyed (e : string * N) : nat * string :=
  (size_rank (fst e), encode_entry e).

(** SIZE if the quantity is 1, else SIZE (quantity). *)
Definition render_entry (e : string * N) : string :=
  if N.eqb (snd e) 1 then fst e else fst e ++ " (" ++ Py.str (snd e) ++ ")".

(** The line of a group, with the newline that ends it in the file. *)
Definition render_line (kg : string * group) : string :=
  match snd kg with
  | Sized es =>
      fst kg ++ " -> "
        ++ String.concat ", " (map render_entry (sort size_le es))
        ++ PickList.nl
  | Unsized q =>
      if N.eqb q 1 then fst kg ++ PickList.nl
      else fst kg ++ " ... (" ++ Py.str q ++ ")" ++ PickList.nl
  end.

(** The pick list: the lines in byte-wise lexicographic order. *)
Definition pick_list_text (m : grouping_map) : string :=
  String.concat "" (sort String.leb (map render_line m)).

(** What a group looks like after it has been rendered. *)
Definition rendered_group (g : group) : value :=
  match g with
  | Sized es => VList (map render_entry (sort size_le es))
  | Unsized q => VStr (Py.str q)
  end.

Definition rendered (m : grouping_map) : dict :=
  map (fun kg => (fst kg, rendered_group (snd kg))) m.

(** The maps the builder is meant for: size labels are dash-free (they
    are fields of a split) and of a class in the table, and a scalar
    quantity is at least 1. *)
Definition entry_ok (e : string * N) : Prop :=
  Py.no_dash (fst e) = true /\ recognized (fst e) = true.

Definition group_ok (g : group) : Prop :=
  match g with
  | Sized es => Forall entry_ok es
  | Unsized q => (1 <= q)%N
  end.

Definition well_formed (m : grouping_map) : Prop :=
  Forall (fun kg => group_ok (snd kg)) m.

(** The maps the normaliser can build: every size label is a field of
    a split, whatever its class. *)
Definition group_dash_free (g : group) : Prop :=
  match g with
  | Sized es => Forall (fun e => Py.no_dash (fst e) = true) es
  | Unsized _ => True
  end.

Definition sizes_dash_free (m : grouping_map) : Prop :=
  Forall (fun kg => group_dash_free (snd kg)) m.

(** Some group holds a size entry. *)
Definition has_sized_entry (m : grouping_map) : Prop :=
  exists k e es, In (k, Sized (e :: es)) m.

End Spec.

(** ** Ledger vocabulary *)

Module LedgerSpec.
Import Ledger.

(** A remap table without entries. *)
Definition no_revisions : string -> option string := fun _ => None.

(** A database that accepts every item row. *)
Definition accepts_all : item_row -> bool := fun _ => true.

(** A database that rejects the item rows of one SKU. *)
Definition rejects (bad : string) : item_row -> bool :=
  fun r => negb (String.eqb (sku r) bad).

(** The rows a new order stands for. *)
Definition order_row_of (o : api_order) : order_row :=
  {| order_number := orderNumber o;
     customer_name := billTo_name o;
     order_date := orderDate o;
     is_new := true |}.

Definition item_row_of (sku_dict : string -> option string)
           (o : api_order) (it : api_item) : item_row :=
  {| ord_num := orderNumber o;
     sku := revised_sku sku_dict it;
     quantity := item_quantity it |}.

Definition item_rows_of (sku_dict : string -> option string)
           (o : api_order) : list item_row :=
  map (item_row_of sku_dict o) (items o).

(** The rows in front of the first one the database rejects. *)
Fixpoint accepted_prefix (item_accepted : item_row -> bool)
         (rows : list item_row) : list item_row :=
  match rows with
  | [] => []
  | r :: rest =>
      if item_accepted r then r :: accepted_prefix item_accepted rest
      else []
  end.

(** Atomic recording of a new order: the order row with all of its item
    rows, or nothing. *)
Definition all_or_nothing (sku_dict : string -> option string)
           (o : api_order) (before after : ledger) : Prop :=
  (order_table after = (order_table before ++ [order_row_of o])%list
   /\ item_table after =
      (item_table before ++ item_rows_of sku_dict o)%list)
  \/ after = before.

(** The order numbers the customer report lists for a customer. *)
Fixpoint listed_orders (c : string) (d : list (string * list string))
  : list string :=
  match d with
  | [] => []
  | (c', ns) :: d' => if String.eqb c c' then ns else listed_orders c d'
  end.

(** The order numbers of a customer's new orders, in table order. *)
Definition new_orders_of (c : string) (L : ledger) : list string :=
  map order_number
      (filter (fun o => is_new o && String.eqb (customer_name o) c)
              (order_table L)).


End LedgerSpec.

(** ** Vocabulary for the grouped query *)

Module QuerySpec.




End QuerySpec.

(** ** Vocabulary for a run of the ledger *)

Module RunSpec.
Import Ledger.

(** An order row as it may look later: the same order, its flag lowered
    or as it was. *)
Definition same_order_flag_lowered (before after : order_row) : Prop :=
  order_number after = order_number before
  /\ customer_name after = customer_name before
  /\ order_date after = order_date before
  /\ (is_new after = true -> is_new before = true).

(** The flags the log must show for a fetch: an order is new when its
    number is neither known beforehand nor met earlier in the fetch. *)
Fixpoint expected_flags (known : list string) (orders : list api_order)
  : list bool :=
  match orders with
  | [] => []
  | o :: rest =>
      negb (existsb (String.eqb (orderNumber o)) known)
        :: expected_flags (orderNumber o :: known) rest
  end.

Definition numbers (L : ledger) : list string :=
  map order_number (order_table L).

(** A row after a fetch of known orders: its flag is lowered if its
    number was fetched. *)
Definition flag_fetched (fetched : list string) (r : order_row) : order_row :=
  if existsb (String.eqb (order_number r)) fetched
  then {| order_number := order_number r;
          customer_name := customer_name r;
          order_date := order_date r;
          is_new := false |}
  else r.

(** The log entry of an order that is not new. *)
Definition old_entry (sku_dict : string -> option string) (o : api_order)
  : log_dict :=
  {| log_order_number := orderNumber o;
     log_customer := billTo_name o;
     log_date := orderDate o;
     log_is_new := false;
     log_item_list := logged_items sku_dict (items o) |}.

End RunSpec.

(** ** Sample data *)

Module Samples.
Import Ledger.

Definition item (s : string) (q : N) : api_item :=
  {| item_sku := s; item_name := "shirt"; item_quantity := q |}.

Definition order (n c : string) (its : list api_item) : api_order :=
  {| orderNumber := n; billTo_name := c;
     orderDate := "2023-01-05 10:00:00"; items := its |}.

Definition row (n c : string) (new : bool) : order_row :=
  {| order_number := n; customer_name := c;
     order_date := "2023-01-05 10:00:00"; is_new := new |}.

Definition item_of (n s : string) (q : N) : item_row :=
  {| ord_num := n; sku := s; quantity := q |}.

Definition empty : ledger := {| order_table := []; item_table := [] |}.

End Samples.

(** ** Vocabulary for timestamps *)

Module DateSpec.
Import OrderDate.

(** A string without a given character. *)
Fixpoint lacks (c : ascii) (s : string) : bool :=
  match s with
  | EmptyString => true
  | String a rest => negb (Ascii.eqb a c) && lacks c rest
  end.

(** The timestamp as the platform sends it, without its fraction:
    YYYY-MM-DDThh:mm:ss. *)
Definition iso_text (t : datetime) : string :=
  Py.str (year t) ++ "-" ++ pad2 (month t) ++ "-" ++ pad2 (day t)
    ++ "T" ++ pad2 (hour t) ++ ":" ++ pad2 (minute t)
    ++ ":" ++ pad2 (second t).

(** The timestamps [datetime] accepts. *)
Definition valid (t : datetime) : Prop :=
  make_datetime (year t) (month t) (day t) (hour t) (minute t) (second t)
  = Ok t.

(** The same moment twelve hours later. *)
Definition half_a_day_later (t : datetime) : datetime :=
  {| year := year t; month := month t; day := day t;
     hour := (hour t + 12)%N; minute := minute t; second := second t |}.

End DateSpec.

(** ** Sample stores *)

Module SampleStores.

Definition store_with (name : string) (orders : list Ledger.api_order)
  : Main.store :=
  {| Main.store_name := name;
     Main.awaiting_shipment_orders_list := orders;
     Main.tables := Samples.empty;
     Main.orders_txt := "stale";
     Main.log_txt := "stale";
     Main.generated_at := "01/06/2023 09:00:00 AM" |}.

End SampleStores.

(** * Properties *)

Unset Implicit Arguments.

(** ** Strings *)

Lemma append_assoc (a b c : string) : (a ++ b) ++ c = a ++ (b ++ c).
Proof. induction a as [|x a IH]; simpl; [reflexivity | now rewrite IH]. Qed.

Lemma append_nil_r (a : string) : a ++ "" = a.
Proof. induction a as [|x a IH]; simpl; [reflexivity | now rewrite IH]. Qed.

Lemma length_append (a b : string) :
  String.length (a ++ b) = String.length a + String.length b.
Proof. induction a as [|x a IH]; simpl; [reflexivity | now rewrite IH]. Qed.

Lemma substring_skip (a b : string) (n : nat) :
  substring (String.length a) n (a ++ b) = substring 0 n b.
Proof. induction a as [|x a IH]; simpl; [reflexivity | exact IH]. Qed.

Lemma substring_0_0 (s : string) : substring 0 0 s = "".
Proof. destruct s; reflexivity. Qed.

Lemma substring_all (b : string) : substring 0 (String.length b) b = b.
Proof. induction b as [|x b IH]; simpl; [reflexivity | now rewrite IH]. Qed.

(** [s[-n:]] of a string that ends in the [n] characters of [t] is [t]. *)
Lemma suffix_append (a t : string) :
  Py.suffix (String.length t) (a ++ t) = t.
Proof.
  unfold Py.suffix. rewrite length_append.
  replace (String.length a + String.length t - String.length t)
    with (String.length a) by lia.
  rewrite substring_skip. apply substring_all.
Qed.

Lemma no_dash_append (a b : string) :
  Py.no_dash (a ++ b) = Py.no_dash a && Py.no_dash b.
Proof.
  induction a as [|x a IH]; simpl; [reflexivity|].
  rewrite IH. now rewrite andb_assoc.
Qed.

Lemma split_no_dash (s : string) : Py.no_dash s = true -> Py.split s = [s].
Proof.
  induction s as [|c s IH]; simpl; intros H; [reflexivity|].
  apply andb_true_iff in H. destruct H as [Hc Hs].
  apply negb_true_iff in Hc. rewrite Hc, (IH Hs). reflexivity.
Qed.

(** The first field of a split ends at the first dash. *)
Lemma split_field (s rest : string) :
  Py.no_dash s = true ->
  Py.split (s ++ String Py.dash rest) = s :: Py.split rest.
Proof.
  induction s as [|c s IH]; simpl; intros H; [reflexivity|].
  apply andb_true_iff in H. destruct H as [Hc Hs].
  apply negb_true_iff in Hc. rewrite Hc, (IH Hs). reflexivity.
Qed.

Lemma split3 (a b c : string) :
  Py.no_dash a = true -> Py.no_dash b = true -> Py.no_dash c = true ->
  Py.split (a ++ "-" ++ b ++ "-" ++ c) = [a; b; c].
Proof.
  intros Ha Hb Hc. simpl.
  now rewrite (split_field _ _ Ha), (split_field _ _ Hb), (split_no_dash _ Hc).
Qed.

Lemma split4 (a b c e : string) :
  Py.no_dash a = true -> Py.no_dash b = true -> Py.no_dash c = true ->
  Py.no_dash e = true ->
  Py.split (a ++ "-" ++ b ++ "-" ++ c ++ "-" ++ e) = [a; b; c; e].
Proof.
  intros Ha Hb Hc He. simpl.
  now rewrite (split_field _ _ Ha), (split_field _ _ Hb), (split_field _ _ Hc),
    (split_no_dash _ He).
Qed.

Lemma all_digits_no_dash (s : string) :
  all_digits s = true -> Py.no_dash s = true.
Proof.
  induction s as [|c s IH]; simpl; intros H; [reflexivity|].
  apply andb_true_iff in H. destruct H as [Hc Hs].
  rewrite (IH Hs), andb_true_r. apply negb_true_iff.
  destruct (Ascii.eqb_spec c Py.dash) as [->|]; [discriminate Hc | reflexivity].
Qed.

(** ** The SKU normaliser *)

Module NormalizerFacts.
Import Normalizer.

Lemma variant_suffix_NEW (base : string) :
  has_variant_suffix (base ++ "NEW") = Ok true.
Proof.
  unfold has_variant_suffix.
  pose proof (suffix_append base "NEW") as H. simpl in H.
  now rewrite H.
Qed.

Lemma last_append (base t : string) :
  t <> "" -> Py.last (base ++ t) = Ok (Py.suffix 1 (base ++ t)).
Proof.
  intros Ht. destruct base as [|c b]; simpl.
  - destruct t; [contradiction | reflexivity].
  - reflexivity.
Qed.

Lemma variant_suffix_P (base : string) :
  has_variant_suffix (base ++ "P") = Ok true.
Proof.
  unfold has_variant_suffix.
  destruct (String.eqb (Py.suffix 3 (base ++ "P")) "NEW"); [reflexivity|].
  rewrite last_append by discriminate.
  pose proof (suffix_append base "P") as H. simpl in H.
  now rewrite H.
Qed.

(** The three-segment PREM rule on a style whose variant test holds. *)
Lemma prem3_cut (style size : string) (quantity : N) (d : dict) :
  Py.no_dash style = true -> Py.no_dash size = true ->
  has_variant_suffix style = Ok true ->
  try_body ("PREM-" ++ style ++ "-" ++ size) quantity d =
  group_append ("PREM-" ++ Py.prefix 3 style) (entry size quantity) d.
Proof.
  intros Hs Hz Hcut. unfold try_body.
  change ("PREM-" ++ style ++ "-" ++ size)
    with ("PREM" ++ "-" ++ style ++ "-" ++ size).
  rewrite (split3 "PREM" style size eq_refl Hs Hz).
  simpl. rewrite Hcut. reflexivity.
Qed.

(** A PREM or tee SKU with neither three nor four segments runs through
    the [try] block without touching the dictionary. *)
Lemma segment_count_falls_through (SKU : string) (quantity : N) (d : dict) :
  let brand := hd "" (Py.split SKU) in
  brand = "PREM" \/ brand = "PremTee" \/ brand = "PremiereLSTee" ->
  List.length (Py.split SKU) <> 3 ->
  List.length (Py.split SKU) <> 4 ->
  try_body SKU quantity d = Ok d.
Proof.
  intros brand Hb H3 H4. unfold try_body. fold brand.
  apply Nat.eqb_neq in H3. apply Nat.eqb_neq in H4.
  destruct Hb as [-> | [-> | ->]]; simpl; now rewrite H3, H4.
Qed.

(** A brand outside the five names is stored under its raw SKU. *)
Lemma other_brand_ungrouped (SKU : string) (quantity : N) (d : dict) :
  let brand := hd "" (Py.split SKU) in
  brand <> "PREM" -> brand <> "PremJeans" -> brand <> "PremiereJeans" ->
  brand <> "PremTee" -> brand <> "PremiereLSTee" ->
  try_body SKU quantity d = Ok (set_ungrouped SKU quantity d).
Proof.
  intros brand H1 H2 H3 H4 H5. unfold try_body. fold brand.
  apply String.eqb_neq in H1, H2, H3, H4, H5.
  now rewrite H1, H2, H3, H4, H5.
Qed.

(** Whatever the [try] block does, the handler stores the raw SKU: an
    iteration has no exceptional exit. *)
Lemma step_raise (SKU : string) (quantity : N) (d : dict) (out : list exn)
      (e : exn) :
  try_body SKU quantity d = Raise e ->
  step (d, out) (SKU, quantity) = (set_ungrouped SKU quantity d, (out ++ [e])%list).
Proof. intros H. unfold step. now rewrite H. Qed.

End NormalizerFacts.

(** C7. A PREM SKU of three segments whose style is a run of digits
    followed by NEW or by P is grouped under PREM-<first three characters
    of the style>, with segment three as its size label: the entry
    [size-quantity] starts the group when the key is new and is appended
    to it when the key holds a list.  PREM-150NEW-XL and PREM-150-XL end up
    in the one group PREM-150. *)
Theorem prem_style_variant_truncated
        (digits suffix size : string) (quantity : N) (d : dict) :
  all_digits digits = true ->
  suffix = "NEW" \/ suffix = "P" ->
  Py.no_dash size = true ->
  let SKU := "PREM-" ++ (digits ++ suffix) ++ "-" ++ size in
  let key := "PREM-" ++ Py.prefix 3 (digits ++ suffix) in
  Normalizer.try_body SKU quantity d =
    Normalizer.group_append key (Normalizer.entry size quantity) d
  /\ (dict_get key d = None ->
      Normalizer.step (d, []) (SKU, quantity) =
        (dict_set key (VList [Normalizer.entry size quantity]) d, []))
  /\ (forall l, dict_get key d = Some (VList l) ->
      Normalizer.step (d, []) (SKU, quantity) =
        (dict_set key (VList (l ++ [Normalizer.entry size quantity])) d, []))
  /\ (3 <= String.length digits -> key = "PREM-" ++ Py.prefix 3 digits)
  /\ (forall q1 q2,
      Normalizer.normalize_rows
        [("PREM-150NEW-XL", q1); ("PREM-150-XL", q2)] [] =
        ([("PREM-150", VList ["XL-" ++ Py.str q1; "XL-" ++ Py.str q2])], [])).
Proof.
  intros Hd Hsuf Hz SKU key.
  assert (Hbody : Normalizer.try_body SKU quantity d =
                  Normalizer.group_append key (Normalizer.entry size quantity) d).
  { apply NormalizerFacts.prem3_cut; [| exact Hz |].
    - rewrite no_dash_append, (all_digits_no_dash _ Hd).
      destruct Hsuf as [-> | ->]; reflexivity.
    - destruct Hsuf as [-> | ->].
      + apply NormalizerFacts.variant_suffix_NEW.
      + apply NormalizerFacts.variant_suffix_P. }
  split; [exact Hbody|].
  split; [| split; [| split]].
  - intros Hnone. unfold Normalizer.step. rewrite Hbody.
    unfold Normalizer.group_append. now rewrite Hnone.
  - intros l Hl. unfold Normalizer.step. rewrite Hbody.
    unfold Normalizer.group_append. now rewrite Hl.
  - intros Hlen. unfold key. f_equal. unfold Py.prefix.
    clear - Hlen.
    destruct digits as [|a [|b [|c r]]]; simpl in Hlen; try lia.
    simpl. now rewrite !substring_0_0.
  - intros q1 q2. reflexivity.
Qed.

Lemma prem_style_variant_truncated_witness :
  Normalizer.try_body "PREM-150NEW-XL" 2 [] =
  Normalizer.group_append "PREM-150" "XL-2" [].
Proof.
  exact (proj1 (prem_style_variant_truncated "150" "NEW" "XL" 2 []
                  eq_refl (or_introl eq_refl) eq_refl)).
Defined.

(** C8. A PremTee or PremiereLSTee SKU of three segments is grouped under
    <style>-<brand> and one of four segments under <brand>-<seg2>-<seg1>;
    in both the size XXL is entered as 2XL.  PremTee-524-XXL gets the size
    label 2XL. *)
Theorem tee_rules (brand seg1 seg2 size : string) (quantity : N) (d : dict) :
  brand = "PremTee" \/ brand = "PremiereLSTee" ->
  Py.no_dash seg1 = true -> Py.no_dash seg2 = true ->
  Py.no_dash size = true ->
  let size' := if String.eqb size "XXL" then "2XL" else size in
  Normalizer.try_body (brand ++ "-" ++ seg1 ++ "-" ++ size) quantity d =
    Normalizer.group_append (seg1 ++ "-" ++ brand)
      (Normalizer.entry size' quantity) d
  /\ Normalizer.try_body
       (brand ++ "-" ++ seg1 ++ "-" ++ seg2 ++ "-" ++ size) quantity d =
     Normalizer.group_append (brand ++ "-" ++ seg2 ++ "-" ++ seg1)
       (Normalizer.entry size' quantity) d
  /\ Normalizer.normalize_rows [("PremTee-524-XXL", quantity)] [] =
     ([("524-PremTee", VList ["2XL-" ++ Py.str quantity])], []).
Proof.
  intros Hb H1 H2 Hz size'.
  assert (Hbrand : Py.no_dash brand = true)
    by (destruct Hb as [-> | ->]; reflexivity).
  split; [| split].
  - unfold Normalizer.try_body.
    rewrite (split3 brand seg1 size Hbrand H1 Hz).
    destruct Hb as [-> | ->]; reflexivity.
  - unfold Normalizer.try_body.
    rewrite (split4 brand seg1 seg2 size Hbrand H1 H2 Hz).
    destruct Hb as [-> | ->]; reflexivity.
  - reflexivity.
Qed.

Lemma tee_rules_witness :
  Normalizer.try_body "PremTee-524-XXL" 1 [] =
  Normalizer.group_append "524-PremTee" "2XL-1" [].
Proof.
  exact (proj1 (tee_rules "PremTee" "524" "NAVY" "XXL" 1 []
                  (or_introl eq_refl) eq_refl eq_refl eq_refl)).
Defined.

(** C1. The ungrouped fallback misses the PREM and tee SKUs whose segment
    count is neither three nor four.  PREM-100 with total quantity 2
    leaves the dictionary empty, and PremTee-524 likewise, although a
    jeans SKU with a wrong segment count and a SKU of another brand are
    both stored under their raw text. *)
Theorem short_prem_sku_is_dropped :
  Normalizer.normalize_rows [("PREM-100", 2%N)] [] = ([], [])
  /\ Normalizer.normalize_rows [("PremTee-524", 2%N)] [] = ([], [])
  /\ dict_get "PREM-100"
       (fst (Ledger.clean_and_normalize_order_data
               {| Ledger.order_table :=
                    [{| Ledger.order_number := "1001";
                        Ledger.customer_name := "Ann";
                        Ledger.order_date := "2023-01-05 10:00:00";
                        Ledger.is_new := true |}];
                  Ledger.item_table :=
                    [{| Ledger.ord_num := "1001";
                        Ledger.sku := "PREM-100";
                        Ledger.quantity := 2 |}] |} [])) = None
  /\ Normalizer.normalize_rows [("PremJeans-BLK", 2%N)] [] =
     ([("PremJeans-BLK", VStr "2")], [ValueError])
  /\ Normalizer.normalize_rows [("WIDGET-1", 2%N)] [] =
     ([("WIDGET-1", VStr "2")], []).
Proof. repeat split. Qed.

(** ** The stable sort *)

Section SortFacts.

Variable A : Type.
Variable le : A -> A -> bool.

Lemma insert_perm (x : A) (l : list A) : Permutation (x :: l) (insert le x l).
Proof.
  induction l as [|y l IH]; simpl; [apply Permutation_refl|].
  destruct (le x y); [apply Permutation_refl|].
  eapply Permutation_trans; [apply perm_swap|].
  now apply perm_skip.
Qed.

Lemma sort_perm (l : list A) : Permutation l (sort le l).
Proof.
  induction l as [|x l IH]; simpl; [apply perm_nil|].
  eapply Permutation_trans; [apply perm_skip, IH | apply insert_perm].
Qed.

Hypothesis le_total : forall a b, le a b = true \/ le b a = true.

Lemma insert_sorted (x : A) (l : list A) :
  Sorted (le_prop le) l -> Sorted (le_prop le) (insert le x l).
Proof.
  induction l as [|y l IH]; simpl; intros Hs.
  - repeat constructor.
  - destruct (le x y) eqn:E.
    + constructor; [exact Hs | constructor; exact E].
    + inversion Hs as [|? ? Hl Hhd]; subst.
      constructor; [now apply IH|].
      assert (Hyx : le y x = true)
        by (destruct (le_total x y) as [H|H]; [congruence | exact H]).
      destruct l as [|z l]; simpl.
      * constructor; exact Hyx.
      * destruct (le x z); constructor; [exact Hyx|].
        now inversion Hhd.
Qed.

Lemma sort_sorted (l : list A) : Sorted (le_prop le) (sort le l).
Proof.
  induction l as [|x l IH]; simpl; [constructor | now apply insert_sorted].
Qed.

End SortFacts.

Section SortMore.

Variables A B : Type.

(** A list in order is left as it is. *)
Lemma sort_of_sorted (le : A -> A -> bool) (l : list A) :
  Sorted (le_prop le) l -> sort le l = l.
Proof.
  induction l as [|x l IH]; simpl; intros Hs; [reflexivity|].
  inversion Hs as [|? ? Hl Hhd]; subst.
  rewrite (IH Hl).
  destruct l as [|y l]; simpl; [reflexivity|].
  inversion Hhd as [|? ? Hxy]; subst. unfold le_prop in Hxy.
  now rewrite Hxy.
Qed.

(** Sorting commutes with a map that preserves the comparison. *)
Lemma sort_map (le : A -> A -> bool) (le' : B -> B -> bool) (f : A -> B)
      (l : list A) :
  (forall a b, le' (f a) (f b) = le a b) ->
  sort le' (map f l) = map f (sort le l).
Proof.
  intros Hf. induction l as [|x l IH]; simpl; [reflexivity|].
  rewrite IH. generalize (sort le l) as s. intros s.
  induction s as [|y s IHs]; simpl; [reflexivity|].
  rewrite Hf. destruct (le x y); simpl; [reflexivity | now rewrite IHs].
Qed.

End SortMore.

(** ** Decimal strings *)

Lemma no_dash_string_of_uint (d : Decimal.uint) :
  Py.no_dash (NilEmpty.string_of_uint d) = true.
Proof. induction d; simpl; auto. Qed.

Lemma no_dash_str (n : N) : Py.no_dash (Py.str n) = true.
Proof. apply no_dash_string_of_uint. Qed.

Lemma str_not_empty (n : N) : Py.str n <> "".
Proof.
  unfold Py.str. intros H.
  destruct (N.to_uint n) eqn:E; simpl in H; try discriminate.
  pose proof (DecimalN.Unsigned.of_to n) as Hn. rewrite E in Hn.
  simpl in Hn. subst n. discriminate E.
Qed.

(** [int(str(n)) == n] *)
Lemma int_str (n : N) : Py.int (Py.str n) = Ok n.
Proof.
  unfold Py.int. pose proof (str_not_empty n) as Hne.
  destruct (Py.str n) eqn:E; [contradiction|].
  rewrite <- E. unfold Py.str.
  now rewrite NilEmpty.usu, DecimalN.Unsigned.of_to.
Qed.

(** ** The size table *)

Module TableFacts.
Import PickList.

Lemma lookup_in (k : string) (r : nat) (t : list (string * nat)) :
  lookup k t = Some r -> In k (map fst t).
Proof.
  induction t as [|[k' r'] t IH]; simpl; [discriminate|].
  destruct (String.eqb_spec k k') as [->|]; [now left | right; auto].
Qed.

(** Every class of the table is two characters long and dash-free. *)
Lemma table_keys (k : string) (r : nat) :
  lookup k desired_order_table = Some r ->
  String.length k = 2 /\ Py.no_dash k = true.
Proof.
  intros H. apply lookup_in in H. simpl in H.
  repeat (destruct H as [<- | H]; [split; reflexivity|]).
  contradiction.
Qed.

Lemma prefix_append (n : nat) (a b : string) :
  n <= String.length a -> Py.prefix n (a ++ b) = Py.prefix n a.
Proof.
  unfold Py.prefix. revert a. induction n as [|n IH]; intros a Hn.
  - now rewrite !substring_0_0.
  - destruct a as [|c a]; simpl in *; [lia|].
    f_equal. apply IH. lia.
Qed.

Lemma prefix_length (n : nat) (a : string) :
  String.length (Py.prefix n a) = Nat.min n (String.length a).
Proof.
  unfold Py.prefix. revert a. induction n as [|n IH]; intros a.
  - now rewrite substring_0_0.
  - destruct a as [|c a]; simpl; [reflexivity | now rewrite IH].
Qed.

(** A label of a known class keeps its class when text follows it. *)
Lemma recognized_prefix (size rest : string) :
  Spec.recognized size = true ->
  Py.prefix 2 (size ++ rest) = Py.prefix 2 size.
Proof.
  unfold Spec.recognized. intros H.
  destruct (lookup (Py.prefix 2 size) desired_order_table) eqn:E;
    [|discriminate].
  apply table_keys in E. destruct E as [Hlen _].
  rewrite prefix_length in Hlen.
  apply prefix_append. lia.
Qed.

(** The class of a stored entry [size-quantity] is unknown whenever the
    class of its size label is: a label shorter than two characters
    brings the dash into the class. *)
Lemma unrecognized_entry (size : string) (q : N) :
  Spec.recognized size = false ->
  lookup (Py.prefix 2 (Normalizer.entry size q)) desired_order_table = None.
Proof.
  unfold Spec.recognized, Normalizer.entry. intros H.
  destruct (lookup (Py.prefix 2 size) desired_order_table) eqn:E;
    [discriminate|].
  destruct (le_lt_dec 2 (String.length size)) as [Hlen | Hlen].
  - now rewrite prefix_append.
  - destruct (lookup (Py.prefix 2 (size ++ "-" ++ Py.str q))
                     desired_order_table) eqn:E2; [|reflexivity].
    apply table_keys in E2. destruct E2 as [_ Hnd]. exfalso.
    destruct size as [|a [|b size]]; simpl in Hlen; try lia.
    + discriminate Hnd.
    + unfold Py.prefix in Hnd. simpl in Hnd.
      rewrite andb_false_r in Hnd. discriminate Hnd.
Qed.

End TableFacts.

(** ** The pick-list builder on well-formed maps *)

Module PickListFacts.
Import PickList Spec.

Lemma split_entry (e : string * N) :
  Py.no_dash (fst e) = true ->
  Py.split (encode_entry e) = [fst e; Py.str (snd e)].
Proof.
  intros H. unfold encode_entry, Normalizer.entry.
  change ("-" ++ Py.str (snd e)) with (String Py.dash (Py.str (snd e))).
  now rewrite (split_field _ _ H), (split_no_dash _ (no_dash_str _)).
Qed.

Lemma desired_order_entry (e : string * N) :
  entry_ok e ->
  desired_order (Py.prefix 2 (encode_entry e)) = Ok (size_rank (fst e)).
Proof.
  intros [_ Hr]. unfold encode_entry, Normalizer.entry.
  rewrite (TableFacts.recognized_prefix _ _ Hr).
  unfold desired_order, size_rank. unfold recognized in Hr.
  now destruct (lookup (Py.prefix 2 (fst e)) desired_order_table).
Qed.

Lemma sort_keys_entries (es : list (string * N)) :
  Forall entry_ok es ->
  sort_keys (map encode_entry es) = Ok (map keyed es).
Proof.
  induction 1 as [|e es He _ IH]; simpl; [reflexivity|].
  now rewrite (desired_order_entry _ He), IH.
Qed.

Lemma sort_by_size_entries (es : list (string * N)) :
  Forall entry_ok es ->
  sort_by_size (map encode_entry es) =
  Ok (map encode_entry (sort size_le es)).
Proof.
  intros H. unfold sort_by_size. rewrite (sort_keys_entries _ H). simpl.
  rewrite (sort_map _ _ size_le key_le keyed) by reflexivity.
  now rewrite map_map.
Qed.

Lemma rewrite_entries_ok (es : list (string * N)) :
  Forall entry_ok es ->
  rewrite_entries (map encode_entry es) = (map render_entry es, None).
Proof.
  induction 1 as [|e es [Hd _] _ IH]; simpl; [reflexivity|].
  rewrite (split_entry _ Hd), int_str, IH. reflexivity.
Qed.

Lemma join_sizes_concat (key : string) (l : list string) :
  join_sizes key l = key ++ String.concat ", " l.
Proof.
  revert key. induction l as [|x l IH]; intros key; simpl.
  - now rewrite append_nil_r.
  - destruct l as [|y l]; [reflexivity|].
    rewrite IH. now rewrite !append_assoc.
Qed.

Lemma sorted_entries_ok (es : list (string * N)) :
  Forall entry_ok es -> Forall entry_ok (sort size_le es).
Proof.
  intros H. apply Forall_forall. intros e He.
  rewrite Forall_forall in H. apply H.
  eapply Permutation_in; [apply Permutation_sym, sort_perm | exact He].
Qed.

Lemma render_group_ok (k : string) (g : group) :
  group_ok g ->
  render_group k (encode_group g) = (rendered_group g, Ok (render_line (k, g))).
Proof.
  destruct g as [es | q]; simpl; intros H.
  - rewrite (sort_by_size_entries _ H).
    rewrite (rewrite_entries_ok _ (sorted_entries_ok _ H)).
    unfold render_line. simpl.
    now rewrite join_sizes_concat, !append_assoc.
  - rewrite int_str. unfold render_line. simpl.
    destruct (N.eqb_spec q 1) as [-> | Hne]; [reflexivity|].
    assert (Hlt : N.ltb 1 q = true) by (apply N.ltb_lt; lia).
    now rewrite Hlt.
Qed.

Lemma render_groups_ok (m : grouping_map) :
  well_formed m ->
  render_groups (encode m) = (rendered m, Ok (map render_line m)).
Proof.
  induction 1 as [|[k g] m Hg _ IH]; simpl; [reflexivity|].
  simpl in Hg. now rewrite (render_group_ok k _ Hg), IH.
Qed.

End PickListFacts.

Lemma size_le_total (a b : string * N) :
  Spec.size_le a b = true \/ Spec.size_le b a = true.
Proof.
  unfold Spec.size_le.
  destruct (Nat.leb_spec (Spec.size_rank (fst a)) (Spec.size_rank (fst b)));
    [now left | right; apply Nat.leb_le; lia].
Qed.

(** C5. On a grouping map whose size labels are dash-free and of a class
    in the table and whose scalar quantities are at least 1, the builder
    writes, over whatever the file held, the lines of the groups in
    byte-wise lexicographic order; the line of a list group is its key,
    [' -> '] and the entries in comparator order joined by [', '], an
    entry being SIZE for quantity 1 and SIZE (quantity) otherwise; the
    line of a scalar group is its key for quantity 1 and
    key ... (quantity) otherwise.  The sorts are permutations in order.
    The group PREM-100 with MED 1 and LRG 2 becomes
    [PREM-100 -> MED, LRG (2)]. *)
Theorem create_pick_list_renders (m : Spec.grouping_map) (old : string) :
  Spec.well_formed m ->
  PickList.create_pick_list (Spec.encode m) old =
    {| PickList.grouping := Spec.rendered m;
       PickList.orders_file := Spec.pick_list_text m;
       PickList.raised := None |}
  /\ (forall es : list (string * N),
        Permutation es (sort Spec.size_le es)
        /\ Sorted (le_prop Spec.size_le) (sort Spec.size_le es))
  /\ Permutation (map Spec.render_line m)
                 (sort String.leb (map Spec.render_line m))
  /\ Sorted (le_prop String.leb) (sort String.leb (map Spec.render_line m))
  /\ PickList.orders_file
       (PickList.create_pick_list
          [("PREM-100", VList ["MED-1"; "LRG-2"])] old) =
     "PREM-100 -> MED, LRG (2)" ++ PickList.nl.
Proof.
  intros Hwf. split; [| split; [| split; [| split]]].
  - unfold PickList.create_pick_list.
    now rewrite (PickListFacts.render_groups_ok _ Hwf).
  - intros es. split; [apply sort_perm | apply sort_sorted, size_le_total].
  - apply sort_perm.
  - apply sort_sorted, String.leb_total.
  - reflexivity.
Qed.

Lemma create_pick_list_renders_witness :
  PickList.create_pick_list
    (Spec.encode [("WIDGET-1", Spec.Unsized 3);
                  ("PREM-100", Spec.Sized [("XL", 1%N); ("MED", 1%N); ("2XL", 3%N)])])
    "stale" =
  {| PickList.grouping :=
       [("WIDGET-1", VStr "3"); ("PREM-100", VList ["MED"; "XL"; "2XL (3)"])];
     PickList.orders_file :=
       "PREM-100 -> MED, XL, 2XL (3)" ++ PickList.nl
         ++ "WIDGET-1 ... (3)" ++ PickList.nl;
     PickList.raised := None |}.
Proof.
  refine (proj1 (create_pick_list_renders
                   [("WIDGET-1", Spec.Unsized 3);
                    ("PREM-100",
                     Spec.Sized [("XL", 1%N); ("MED", 1%N); ("2XL", 3%N)])]
                   "stale" _)).
  repeat constructor; simpl; discriminate.
Defined.

(** ** A dictionary that has been rendered once *)

Module RenderedFacts.
Import PickList Spec.

Lemma no_dash_render_entry (e : string * N) :
  entry_ok e -> Py.no_dash (render_entry e) = true.
Proof.
  intros [Hd _]. unfold render_entry.
  destruct (N.eqb (snd e) 1); [exact Hd|].
  now rewrite !no_dash_append, Hd, no_dash_str.
Qed.

Lemma has_dash_encode_entry (e : string * N) :
  Py.no_dash (encode_entry e) = false.
Proof.
  unfold encode_entry, Normalizer.entry.
  rewrite no_dash_append. simpl. apply andb_false_r.
Qed.

Lemma desired_order_rendered (e : string * N) :
  entry_ok e ->
  desired_order (Py.prefix 2 (render_entry e)) = Ok (size_rank (fst e)).
Proof.
  intros [_ Hr].
  assert (Hp : Py.prefix 2 (render_entry e) = Py.prefix 2 (fst e)).
  { unfold render_entry. destruct (N.eqb (snd e) 1); [reflexivity|].
    now apply TableFacts.recognized_prefix. }
  rewrite Hp. unfold desired_order, size_rank. unfold recognized in Hr.
  now destruct (lookup (Py.prefix 2 (fst e)) desired_order_table).
Qed.

Lemma sort_keys_rendered (es : list (string * N)) :
  Forall entry_ok es ->
  sort_keys (map render_entry es) =
  Ok (map (fun e => (size_rank (fst e), render_entry e)) es).
Proof.
  induction 1 as [|e es He _ IH]; simpl; [reflexivity|].
  now rewrite (desired_order_rendered _ He), IH.
Qed.

(** Sorting the rendered entries again changes nothing. *)
Lemma sort_by_size_rendered (es : list (string * N)) :
  Forall entry_ok es ->
  sort_by_size (map render_entry (sort size_le es)) =
  Ok (map render_entry (sort size_le es)).
Proof.
  intros H. unfold sort_by_size.
  rewrite (sort_keys_rendered _ (PickListFacts.sorted_entries_ok _ H)).
  simpl.
  rewrite (sort_map _ _ size_le key_le
             (fun e => (size_rank (fst e), render_entry e)))
    by reflexivity.
  rewrite (sort_of_sorted _ size_le) by apply sort_sorted, size_le_total.
  now rewrite map_map.
Qed.

(** An entry without a dash does not split in two. *)
Lemma rewrite_entries_stuck (x : string) (l : list string) :
  Py.no_dash x = true ->
  rewrite_entries (x :: l) = (x :: l, Some ValueError).
Proof. intros H. simpl. now rewrite (split_no_dash _ H). Qed.

Lemma sort_not_nil (e : string * N) (es : list (string * N)) :
  sort size_le (e :: es) <> [].
Proof.
  intros H. pose proof (sort_perm _ size_le (e :: es)) as P.
  rewrite H in P. apply Permutation_sym, Permutation_nil in P.
  discriminate P.
Qed.

Lemma render_group_again (k : string) (g : group) :
  group_ok g ->
  match g with
  | Sized (_ :: _) =>
      render_group k (rendered_group g) = (rendered_group g, Raise ValueError)
  | _ => exists line,
      render_group k (rendered_group g) = (rendered_group g, Ok line)
  end.
Proof.
  destruct g as [[|e es] | q]; simpl; intros H.
  - eexists. reflexivity.
  - change (insert size_le e (sort size_le es)) with (sort size_le (e :: es)).
    rewrite (sort_by_size_rendered _ H).
    pose proof (PickListFacts.sorted_entries_ok _ H) as Hs.
    pose proof (sort_not_nil e es) as Hne.
    destruct (sort size_le (e :: es)) as [|x s]; [contradiction|].
    inversion Hs as [|? ? Hx _]; subst. simpl map.
    now rewrite (rewrite_entries_stuck _ _ (no_dash_render_entry _ Hx)).
  - rewrite int_str. eexists. reflexivity.
Qed.

Lemma has_sized_entry_tail (k : string) (g : group) (m : grouping_map) :
  has_sized_entry ((k, g) :: m) ->
  (forall e es, g <> Sized (e :: es)) ->
  has_sized_entry m.
Proof.
  intros (k' & e & es & [Heq | Hin]) Hg.
  - inversion Heq; subst. now destruct (Hg e es).
  - now exists k', e, es.
Qed.

(** The second run stops at the first group that holds a size entry and
    leaves the dictionary as it found it. *)
Lemma render_groups_again (m : grouping_map) :
  well_formed m -> has_sized_entry m ->
  render_groups (rendered m) = (rendered m, Raise ValueError).
Proof.
  induction 1 as [|[k g] m Hg Hm IH]; intros Hex.
  - destruct Hex as (? & ? & ? & []).
  - simpl in Hg. pose proof (render_group_again k g Hg) as Hr.
    simpl. destruct g as [[|e es] | q].
    + destruct Hr as [line Hr]. rewrite Hr.
      rewrite IH; [reflexivity|].
      eapply has_sized_entry_tail; [exact Hex | discriminate].
    + now rewrite Hr.
    + destruct Hr as [line Hr]. rewrite Hr.
      rewrite IH; [reflexivity|].
      eapply has_sized_entry_tail; [exact Hex | discriminate].
Qed.

Lemma rendered_differs (m : grouping_map) :
  well_formed m -> has_sized_entry m -> rendered m <> encode m.
Proof.
  intros Hwf (k & e & es & Hin) Heq.
  unfold rendered, encode in Heq.
  assert (Hg : rendered_group (Sized (e :: es)) = encode_group (Sized (e :: es))).
  { pose proof (proj1 map_ext_in_iff Heq (k, Sized (e :: es)) Hin) as H.
    cbn [fst snd] in H. exact (f_equal snd H). }
  unfold well_formed in Hwf. rewrite Forall_forall in Hwf.
  pose proof (Hwf _ Hin) as Hok. simpl in Hok.
  pose proof (PickListFacts.sorted_entries_ok _ Hok) as Hs.
  pose proof (sort_not_nil e es) as Hne.
  simpl in Hg. injection Hg as Hg.
  change (insert size_le e (sort size_le es)) with (sort size_le (e :: es)) in Hg.
  destruct (sort size_le (e :: es)) as [|x s]; [contradiction|].
  inversion Hs as [|? ? Hx _]; subst.
  simpl in Hg. injection Hg as Hhd _.
  pose proof (no_dash_render_entry _ Hx) as Hnd.
  rewrite Hhd in Hnd.
  change (Normalizer.entry (fst e) (snd e)) with (encode_entry e) in Hnd.
  rewrite has_dash_encode_entry in Hnd. discriminate Hnd.
Qed.

Lemma rendered_entries_dash_free (m : grouping_map) (k : string)
      (l : list string) (x : string) :
  well_formed m -> In (k, VList l) (rendered m) -> In x l ->
  Py.no_dash x = true.
Proof.
  intros Hwf Hin Hx. unfold rendered in Hin.
  apply in_map_iff in Hin. destruct Hin as ([k' g] & Heq & Hin).
  unfold well_formed in Hwf. rewrite Forall_forall in Hwf.
  pose proof (Hwf _ Hin) as Hok. simpl in Hok, Heq.
  destruct g as [es | q]; simpl in Heq; [|discriminate].
  injection Heq as _ <-.
  apply in_map_iff in Hx. destruct Hx as (e & <- & He).
  apply no_dash_render_entry.
  pose proof (PickListFacts.sorted_entries_ok _ Hok) as Hs.
  rewrite Forall_forall in Hs. now apply Hs.
Qed.

End RenderedFacts.

(** C9. Building the pick list consumes the grouping dictionary.  After a
    call on a well-formed map that holds a size entry, every list group
    holds its sorted, rendered entries in place of the [SIZE-QTY] strings
    (none of them has a dash any more), so the dictionary differs from
    the one the call was given; a second call on that dictionary raises
    ValueError where an entry is split, writes no file and changes
    nothing. *)
Theorem create_pick_list_consumes_grouping
        (m : Spec.grouping_map) (old : string) :
  Spec.well_formed m -> Spec.has_sized_entry m ->
  let first := PickList.create_pick_list (Spec.encode m) old in
  PickList.raised first = None
  /\ PickList.grouping first = Spec.rendered m
  /\ PickList.grouping first <> Spec.encode m
  /\ (forall k es, In (k, Spec.Sized es) m ->
        In (k, VList (map Spec.render_entry (sort Spec.size_le es)))
           (PickList.grouping first))
  /\ (forall k l x, In (k, VList l) (PickList.grouping first) -> In x l ->
        Py.no_dash x = true)
  /\ (forall file,
        PickList.create_pick_list (PickList.grouping first) file =
        {| PickList.grouping := PickList.grouping first;
           PickList.orders_file := file;
           PickList.raised := Some ValueError |}).
Proof.
  intros Hwf Hex first.
  assert (Hfirst : first =
                   {| PickList.grouping := Spec.rendered m;
                      PickList.orders_file := Spec.pick_list_text m;
                      PickList.raised := None |}).
  { unfold first, PickList.create_pick_list.
    now rewrite (PickListFacts.render_groups_ok _ Hwf). }
  rewrite Hfirst. simpl.
  split; [reflexivity|]. split; [reflexivity|].
  split; [now apply RenderedFacts.rendered_differs|].
  split; [| split].
  - intros k es Hin. unfold Spec.rendered.
    apply in_map_iff. exists (k, Spec.Sized es). now split.
  - intros k l x Hin Hx.
    eapply RenderedFacts.rendered_entries_dash_free; eauto.
  - intros file. unfold PickList.create_pick_list.
    now rewrite (RenderedFacts.render_groups_again _ Hwf Hex).
Qed.

Lemma create_pick_list_consumes_grouping_witness :
    PickList.create_pick_list
      (PickList.grouping
         (PickList.create_pick_list
            (Spec.encode [("PREM-100", Spec.Sized [("MED", 1%N); ("LRG", 2%N)])])
            "")) "kept" =
    {| PickList.grouping :=
         PickList.grouping
           (PickList.create_pick_list
              (Spec.encode [("PREM-100", Spec.Sized [("MED", 1%N); ("LRG", 2%N)])])
              "");
       PickList.orders_file := "kept";
       PickList.raised := Some ValueError |}.
Proof.
  refine (proj2 (proj2 (proj2 (proj2 (proj2
    (create_pick_list_consumes_grouping
       [("PREM-100", Spec.Sized [("MED", 1%N); ("LRG", 2%N)])] "" _ _)))))
    "kept").
  - repeat constructor.
  - exists "PREM-100", ("MED", 1%N), [("LRG", 2%N)]. now left.
Defined.

(** ** Size labels outside the table *)

Module UnknownSizeFacts.
Import PickList Spec.

Lemma sort_keys_unknown (l : list string) (x : string) :
  In x l -> unknown (Py.prefix 2 x) ->
  exists key, sort_keys l = Raise (KeyError key) /\ unknown key.
Proof.
  unfold unknown. induction l as [|h l IH]; intros Hin Hx; [contradiction|].
  simpl. unfold desired_order at 1.
  destruct (lookup (Py.prefix 2 h) desired_order_table) eqn:E.
  - destruct Hin as [-> | Hin]; [congruence|].
    destruct (IH Hin Hx) as (key & -> & Hk). simpl. now exists key.
  - simpl. now exists (Py.prefix 2 h).
Qed.

Lemma render_group_unknown (k : string) (l : list string) (x : string) :
  In x l -> unknown (Py.prefix 2 x) ->
  exists key,
    render_group k (VList l) = (VList l, Raise (KeyError key)) /\ unknown key.
Proof.
  intros Hin Hx. destruct (sort_keys_unknown l x Hin Hx) as (key & Hs & Hk).
  exists key. split; [|exact Hk].
  unfold render_group, sort_by_size. now rewrite Hs.
Qed.

(** Whatever else the dictionary holds, a list with an entry of unknown
    class ends the loop with an exception. *)
Lemma render_groups_unknown (d : dict) (k : string) (l : list string)
      (x : string) :
  In (k, VList l) d -> In x l -> unknown (Py.prefix 2 x) ->
  exists d' e, render_groups d = (d', Raise e).
Proof.
  intros Hin Hx Hu. induction d as [|[k' v'] d IH]; [contradiction|].
  simpl. destruct Hin as [Heq | Hin].
  - injection Heq as -> ->.
    destruct (render_group_unknown k l x Hx Hu) as (key & -> & _).
    now eexists _, _.
  - destruct (render_group k' v') as [v'' [line | e]].
    + destruct (IH Hin) as (d' & e & ->). now eexists _, _.
    + now eexists _, _.
Qed.

Lemma recognized_or_not (es : list (string * N)) :
  Forall (fun e => Py.no_dash (fst e) = true) es ->
  Forall entry_ok es
  \/ exists e, In e es /\ recognized (fst e) = false.
Proof.
  induction 1 as [|e es He _ IH]; [left; constructor|].
  destruct (recognized (fst e)) eqn:E.
  - destruct IH as [IH | (e' & Hin & He')].
    + left. constructor; [now split | exact IH].
    + right. exists e'. split; [now right | exact He'].
  - right. exists e. split; [now left | exact E].
Qed.

(** On a dictionary built by the normaliser a group either renders or
    raises the KeyError of an unknown class. *)
Lemma render_group_dash_free (k : string) (g : group) :
  group_dash_free g ->
  (exists v line, render_group k (encode_group g) = (v, Ok line))
  \/ (exists key,
        render_group k (encode_group g) =
          (encode_group g, Raise (KeyError key))
        /\ unknown key).
Proof.
  destruct g as [es | q]; simpl; intros H.
  - destruct (recognized_or_not es H) as [Hok | (e & Hin & He)].
    + left. rewrite (PickListFacts.sort_by_size_entries _ Hok).
      rewrite (PickListFacts.rewrite_entries_ok
                 _ (PickListFacts.sorted_entries_ok _ Hok)).
      now eexists _, _.
    + right.
      apply (render_group_unknown k (map encode_entry es) (encode_entry e)).
      * now apply in_map.
      * apply TableFacts.unrecognized_entry. exact He.
  - left. rewrite int_str. now eexists _, _.
Qed.

Lemma render_groups_dash_free (m : grouping_map) (k : string)
      (es : list (string * N)) (e : string * N) :
  sizes_dash_free m ->
  In (k, Sized es) m -> In e es -> recognized (fst e) = false ->
  exists d' key,
    render_groups (encode m) = (d', Raise (KeyError key)) /\ unknown key.
Proof.
  intros Hdf Hin He Hu. induction Hdf as [|[k' g] m Hg _ IH]; [contradiction|].
  simpl in Hg. simpl.
  destruct (render_group_dash_free k' g Hg)
    as [(v & line & Hr) | (key & Hr & Hk)]; rewrite Hr.
  - destruct Hin as [Heq | Hin].
    + injection Heq as -> ->. exfalso.
      assert (Hx : unknown (Py.prefix 2 (encode_entry e)))
        by (apply TableFacts.unrecognized_entry; exact Hu).
      destruct (render_group_unknown k (map encode_entry es) (encode_entry e)
                  (in_map _ _ _ He) Hx) as (key & Hr' & _).
      change (encode_group (Sized es)) with (VList (map encode_entry es)) in Hr.
      rewrite Hr' in Hr. discriminate Hr.
    + destruct (IH Hin) as (d' & key & -> & Hk). simpl. now eexists _, key.
  - now eexists _, key.
Qed.

End UnknownSizeFacts.

(** C6. A size label whose first two characters are no key of the size
    table makes the pick-list stage fail: whenever a list group of the
    dictionary holds the entry of such a label, [create_pick_list] ends in
    an exception and leaves the file unwritten; on a dictionary built by
    the normaliser the exception is the KeyError of a class that is not in
    the table. *)
Theorem unrecognized_size_fails
        (d : dict) (file k : string) (l : list string) (size : string) (q : N) :
  In (k, VList l) d ->
  In (Normalizer.entry size q) l ->
  Spec.recognized size = false ->
  (exists e,
     PickList.raised (PickList.create_pick_list d file) = Some e
     /\ PickList.orders_file (PickList.create_pick_list d file) = file)
  /\ (forall (m : Spec.grouping_map) (es : list (string * N)),
        Spec.sizes_dash_free m ->
        In (k, Spec.Sized es) m -> In (size, q) es ->
        exists key,
          PickList.raised (PickList.create_pick_list (Spec.encode m) file) =
            Some (KeyError key)
          /\ PickList.lookup key PickList.desired_order_table = None
          /\ PickList.orders_file
               (PickList.create_pick_list (Spec.encode m) file) = file).
Proof.
  intros Hin Hx Hu. split.
  - pose proof (TableFacts.unrecognized_entry size q Hu) as Hk.
    destruct (UnknownSizeFacts.render_groups_unknown d k l _ Hin Hx Hk)
      as (d' & e & Hr).
    exists e. unfold PickList.create_pick_list. rewrite Hr. now split.
  - intros m es Hdf Hm He.
    destruct (UnknownSizeFacts.render_groups_dash_free m k es (size, q)
                Hdf Hm He Hu) as (d' & key & Hr & Hk).
    exists key. unfold PickList.create_pick_list. rewrite Hr. now repeat split.
Qed.

Lemma unrecognized_size_fails_witness :
  exists e,
    PickList.raised
      (PickList.create_pick_list
         [("PREM-100", VList ["MED-1"; "XXL-2"])] "kept") = Some e
    /\ PickList.orders_file
         (PickList.create_pick_list
            [("PREM-100", VList ["MED-1"; "XXL-2"])] "kept") = "kept".
Proof.
  refine (proj1 (unrecognized_size_fails
                   [("PREM-100", VList ["MED-1"; "XXL-2"])] "kept" "PREM-100"
                   ["MED-1"; "XXL-2"] "XXL" 2 _ _ _)).
  - now left.
  - right. now left.
  - reflexivity.
Defined.

(** ** The ledger *)

Module LedgerFacts.
Import Ledger LedgerSpec.

Section WithTables.

Variable sku_dict : string -> option string.
Variable item_accepted : item_row -> bool.

Lemma insert_items_spec (o : api_order) (its : list api_item) (L : ledger)
      (curr : list (string * N)) :
  let rows := map (item_row_of sku_dict o) its in
  insert_items sku_dict item_accepted (orderNumber o) its L curr =
  ({| order_table := order_table L;
      item_table := (item_table L ++ accepted_prefix item_accepted rows)%list |},
   if forallb item_accepted rows
   then Ok (curr ++ logged_items sku_dict its)%list
   else Raise DatabaseError).
Proof.
  revert L curr. induction its as [|it its IH]; intros L curr; simpl.
  - rewrite !app_nil_r. now destruct L.
  - unfold insert_item, item_row_of at 1 2. simpl.
    fold (item_row_of sku_dict o it).
    destruct (item_accepted (item_row_of sku_dict o it)) eqn:E; simpl.
    + rewrite IH. simpl. rewrite <- !app_assoc. reflexivity.
    + rewrite app_nil_r. now destruct L.
Qed.

(** An order whose number the ledger holds: nothing is inserted, the
    rows of that number get [is_new = 0], no flag is raised. *)
Lemma parse_known_order (o : api_order) (L : ledger) (r : order_row) :
  select_order (orderNumber o) L = Some r ->
  let L' := fst (parse_order sku_dict item_accepted o L) in
  item_table L' = item_table L
  /\ order_table L' = map (flag_row (orderNumber o)) (order_table L)
  /\ List.length (order_table L') = List.length (order_table L)
  /\ map order_number (order_table L') = map order_number (order_table L)
  /\ (forall r', In r' (order_table L') ->
        order_number r' = orderNumber o -> is_new r' = false)
  /\ Forall2 (fun old new => is_new new = true -> is_new old = true)
             (order_table L) (order_table L').
Proof.
  intros Hsel. unfold parse_order. rewrite Hsel. simpl.
  split; [reflexivity|]. split; [reflexivity|].
  split; [apply length_map|].
  split.
  { rewrite map_map. apply map_ext. intros a. unfold flag_row.
    now destruct (has_number (orderNumber o) a). }
  split.
  { intros r' Hin Hn. apply in_map_iff in Hin.
    destruct Hin as (a & <- & _). unfold flag_row in *.
    destruct (has_number (orderNumber o) a) eqn:E; [reflexivity|].
    unfold has_number in E. rewrite Hn, String.eqb_refl in E.
    discriminate E. }
  induction (order_table L) as [|a t IH]; simpl; constructor; [|exact IH].
  unfold flag_row. now destruct (has_number (orderNumber o) a).
Qed.

End WithTables.

(** The items of an order that is not new stay out of the query that
    feeds the pick list. *)
Lemma flagged_items_not_new (L : ledger) (n : string) :
  (forall r, In r (order_table L) -> order_number r = n -> is_new r = false) ->
  new_item_rows L =
  new_item_rows {| order_table := order_table L;
                   item_table :=
                     filter (fun it => negb (String.eqb (ord_num it) n))
                            (item_table L) |}.
Proof.
  intros Hflag. unfold new_item_rows. simpl.
  induction (item_table L) as [|it its IH]; simpl; [reflexivity|].
  destruct (String.eqb_spec (ord_num it) n) as [Heq | Hne]; simpl.
  - rewrite <- IH.
    replace (filter _ (order_table L)) with (@nil order_row); [reflexivity|].
    symmetry. clear IH.
    induction (order_table L) as [|r t IHt]; simpl; [reflexivity|].
    destruct (String.eqb_spec (ord_num it) (order_number r)) as [E|E]; simpl.
    + rewrite (Hflag r (or_introl eq_refl)) by congruence.
      apply IHt. intros r' Hin. apply Hflag. now right.
    + apply IHt. intros r' Hin. apply Hflag. now right.
  - now rewrite IH.
Qed.

End LedgerFacts.

(** C4, as the code has it.  A new order is recorded statement by
    statement, each with its own commit: the order row first, then the
    item rows one at a time in item order.  The ledger ends up with the
    order row and the item rows in front of the first one the database
    rejects; with every row accepted these are all of them and the order
    is logged as new, otherwise the database error leaves the loop. *)
Theorem new_order_committed_stepwise
        (sku_dict : string -> option string)
        (item_accepted : Ledger.item_row -> bool)
        (o : Ledger.api_order) (L : Ledger.ledger) :
  Ledger.select_order (Ledger.orderNumber o) L = None ->
  let rows := LedgerSpec.item_rows_of sku_dict o in
  let L' := fst (Ledger.parse_order sku_dict item_accepted o L) in
  let r := snd (Ledger.parse_order sku_dict item_accepted o L) in
  Ledger.order_table L' =
    (Ledger.order_table L ++ [LedgerSpec.order_row_of o])%list
  /\ Ledger.item_table L' =
     (Ledger.item_table L ++ LedgerSpec.accepted_prefix item_accepted rows)%list
  /\ (forallb item_accepted rows = true ->
      LedgerSpec.accepted_prefix item_accepted rows = rows
      /\ r = Ok {| Ledger.log_order_number := Ledger.orderNumber o;
                   Ledger.log_customer := Ledger.billTo_name o;
                   Ledger.log_date := Ledger.orderDate o;
                   Ledger.log_is_new := true;
                   Ledger.log_item_list :=
                     Ledger.logged_items sku_dict (Ledger.items o) |})
  /\ (forallb item_accepted rows = false -> r = Raise DatabaseError).
Proof.
  intros Hsel rows L' r. unfold L', r, Ledger.parse_order. rewrite Hsel.
  rewrite (LedgerFacts.insert_items_spec sku_dict item_accepted o).
  fold (LedgerSpec.item_rows_of sku_dict o). fold rows.
  destruct (forallb item_accepted rows) eqn:E; simpl.
  - split; [reflexivity|]. split; [reflexivity|]. split; [|discriminate].
    intros _. split; [|reflexivity].
    clear - E. induction rows as [|x rows IH]; simpl in *; [reflexivity|].
    apply andb_true_iff in E. destruct E as [Hx Hr].
    now rewrite Hx, (IH Hr).
  - split; [reflexivity|]. split; [reflexivity|]. split; [discriminate|].
    reflexivity.
Qed.

Lemma new_order_committed_stepwise_witness :
  Ledger.item_table
    (fst (Ledger.parse_order LedgerSpec.no_revisions (LedgerSpec.rejects "BAD")
            {| Ledger.orderNumber := "1001";
               Ledger.billTo_name := "Ann";
               Ledger.orderDate := "2023-01-05 10:00:00";
               Ledger.items :=
                 [{| Ledger.item_sku := "PREM-100-MED"; Ledger.item_name := "shirt";
                     Ledger.item_quantity := 1 |};
                  {| Ledger.item_sku := "BAD"; Ledger.item_name := "other";
                     Ledger.item_quantity := 1 |}] |}
            {| Ledger.order_table := []; Ledger.item_table := [] |})) =
  [{| Ledger.ord_num := "1001"; Ledger.sku := "PREM-100-MED";
      Ledger.quantity := 1 |}].
Proof.
  exact (proj1 (proj2
    (new_order_committed_stepwise LedgerSpec.no_revisions (LedgerSpec.rejects "BAD")
       {| Ledger.orderNumber := "1001";
          Ledger.billTo_name := "Ann";
          Ledger.orderDate := "2023-01-05 10:00:00";
          Ledger.items :=
            [{| Ledger.item_sku := "PREM-100-MED"; Ledger.item_name := "shirt";
                Ledger.item_quantity := 1 |};
             {| Ledger.item_sku := "BAD"; Ledger.item_name := "other";
                Ledger.item_quantity := 1 |}] |}
       {| Ledger.order_table := []; Ledger.item_table := [] |}
       eq_refl))).
Defined.

(** C4, as the claim has it, fails: when the database rejects the second
    item of a new order, the order row and the first item row are in the
    ledger and the second item row is not. *)
Lemma new_order_not_atomic :
  let o := {| Ledger.orderNumber := "1001";
              Ledger.billTo_name := "Ann";
              Ledger.orderDate := "2023-01-05 10:00:00";
              Ledger.items :=
                [{| Ledger.item_sku := "PREM-100-MED"; Ledger.item_name := "shirt";
                    Ledger.item_quantity := 1 |};
                 {| Ledger.item_sku := "BAD"; Ledger.item_name := "other";
                    Ledger.item_quantity := 1 |}] |} in
  let before := {| Ledger.order_table := []; Ledger.item_table := [] |} in
  let after :=
    fst (Ledger.parse_order LedgerSpec.no_revisions (LedgerSpec.rejects "BAD")
           o before) in
  Ledger.order_table after = [LedgerSpec.order_row_of o]
  /\ List.length (Ledger.item_table after) = 1
  /\ ~ LedgerSpec.all_or_nothing LedgerSpec.no_revisions o before after.
Proof.
  cbv zeta. split; [reflexivity|]. split; [reflexivity|].
  intros [[_ H] | H]; discriminate H.
Qed.

(** ** The customer report *)

Module ReportFacts.
Import Ledger LedgerSpec.






Lemma add_order_not_nil (c n : string) (d : list (string * list string)) :
  add_order c n d <> [].
Proof. destruct d as [|[k ns] d]; simpl; [|destruct (String.eqb c k)]; discriminate. Qed.

Lemma fold_add_order_nil (rows : list (string * string))
      (d : list (string * list string)) :
  fold_left (fun d row => add_order (fst row) (snd row) d) rows d = [] ->
  rows = [] /\ d = [].
Proof.
  revert d. induction rows as [|row rows IH]; intros d H; simpl in H.
  - now split.
  - apply IH in H. destruct H as [_ H]. now apply add_order_not_nil in H.
Qed.

(** Without a customer of more than one new order the marker line is
    written. *)
Lemma no_customers_marker (L : ledger) :
  (forall c, new_order_count c L <= 1) ->
  customers_report L =
  PickList.nl ++ "CUSTOMERS WITH MORE THAN ONE ORDER:"
    ++ PickList.nl ++ PickList.nl ++ no_customers.
Proof.
  intros H. unfold customers_report.
  assert (Hsel : selected_rows L = []).
  { unfold selected_rows.
    replace (filter _ (order_table L)) with (@nil order_row); [reflexivity|].
    symmetry. induction (order_table L) as [|o t IH]; simpl; [reflexivity|].
    unfold in_temporary_table at 1.
    destruct (Nat.ltb_spec 1 (new_order_count (customer_name o) L)) as [Hlt|_].
    - specialize (H (customer_name o)). lia.
    - exact IH. }
  unfold order_info_dict. now rewrite Hsel.
Qed.

End ReportFacts.

(** C3. The report is scoped to new orders only in whom it reports, not in
    what it lists.  With an order A1 of Ann that is no longer new and her
    new orders A2 and A3 in the ledger, Ann is reported with three orders,
    A1 among them, while her new orders are A2 and A3. *)
Theorem customer_report_lists_old_orders :
  let L := {| Ledger.order_table :=
                [{| Ledger.order_number := "A1"; Ledger.customer_name := "Ann";
                    Ledger.order_date := "2023-01-04 09:00:00";
                    Ledger.is_new := false |};
                 {| Ledger.order_number := "A2"; Ledger.customer_name := "Ann";
                    Ledger.order_date := "2023-01-05 10:00:00";
                    Ledger.is_new := true |};
                 {| Ledger.order_number := "A3"; Ledger.customer_name := "Ann";
                    Ledger.order_date := "2023-01-05 11:00:00";
                    Ledger.is_new := true |}];
              Ledger.item_table := [] |} in
  LedgerSpec.new_orders_of "Ann" L = ["A2"; "A3"]
  /\ LedgerSpec.listed_orders "Ann" (Ledger.order_info_dict L) =
     ["A1"; "A2"; "A3"]
  /\ Ledger.customers_with_multiple_orders L "" =
     PickList.nl ++ "CUSTOMERS WITH MORE THAN ONE ORDER:"
       ++ PickList.nl ++ PickList.nl
       ++ "Ann - 3 Orders:" ++ PickList.nl
       ++ "A1A2A3" ++ PickList.nl ++ PickList.nl.
Proof. cbv zeta. repeat split. Qed.

(** ** Orders seen again *)

Module SeenFacts.
Import Ledger LedgerSpec.

Section WithTables.

Variable sku_dict : string -> option string.
Variable item_accepted : item_row -> bool.

Lemma order_table_after_parse (o : api_order) (L : ledger) :
  order_table (fst (parse_order sku_dict item_accepted o L)) =
  match select_order (orderNumber o) L with
  | Some _ => map (flag_row (orderNumber o)) (order_table L)
  | None => (order_table L ++ [order_row_of o])%list
  end.
Proof.
  unfold parse_order.
  destruct (select_order (orderNumber o) L) eqn:E; [reflexivity|].
  rewrite (LedgerFacts.insert_items_spec sku_dict item_accepted o).
  now destruct (forallb _ _).
Qed.

Lemma find_flagged (n m : string) (t : list order_row) :
  find (has_number n) t <> None ->
  find (has_number n) (map (flag_row m) t) <> None.
Proof.
  induction t as [|r t IH]; simpl; [auto|].
  assert (Hn : has_number n (flag_row m r) = has_number n r)
    by (unfold flag_row; now destruct (has_number m r)).
  rewrite Hn. destruct (has_number n r); [discriminate | exact IH].
Qed.

(** A number the ledger holds stays in it. *)
Lemma select_persists (n : string) (o : api_order) (L : ledger) :
  select_order n L <> None ->
  select_order n (fst (parse_order sku_dict item_accepted o L)) <> None.
Proof.
  unfold select_order at 1 2. rewrite order_table_after_parse.
  intros H. destruct (select_order (orderNumber o) L).
  - now apply find_flagged.
  - induction (order_table L) as [|r t IH]; simpl in *; [contradiction|].
    destruct (has_number n r); [discriminate | now apply IH].
Qed.

(** Once parsed, an order is in the ledger, whatever became of its
    items. *)
Lemma select_after_parse (o : api_order) (L : ledger) :
  select_order (orderNumber o)
    (fst (parse_order sku_dict item_accepted o L)) <> None.
Proof.
  destruct (select_order (orderNumber o) L) eqn:E.
  - apply select_persists. congruence.
  - unfold select_order. rewrite order_table_after_parse, E.
    induction (order_table L) as [|r t IH]; simpl.
    + unfold has_number. simpl. rewrite String.eqb_refl. discriminate.
    + destruct (has_number (orderNumber o) r); [discriminate | exact IH].
Qed.

(** A later occurrence of a number already parsed in the same run is
    logged as not new and clears the flag of the row just inserted. *)
Lemma later_occurrence_not_new (o o' : api_order) (L : ledger) :
  orderNumber o' = orderNumber o ->
  let L1 := fst (parse_order sku_dict item_accepted o L) in
  let L2 := fst (parse_order sku_dict item_accepted o' L1) in
  (exists e, snd (parse_order sku_dict item_accepted o' L1) = Ok e
             /\ log_is_new e = false)
  /\ item_table L2 = item_table L1
  /\ forall r, In r (order_table L2) ->
               order_number r = orderNumber o -> is_new r = false.
Proof.
  intros Hn L1 L2.
  pose proof (select_after_parse o L) as Hsel. fold L1 in Hsel.
  rewrite <- Hn in Hsel.
  destruct (select_order (orderNumber o') L1) as [r|] eqn:E;
    [|contradiction].
  destruct (LedgerFacts.parse_known_order sku_dict item_accepted o' L1 r E)
    as (Hit & _ & _ & _ & Hflag & _).
  split; [| split].
  - unfold parse_order. rewrite E. simpl. now eexists.
  - exact Hit.
  - intros r' Hin Hr. apply Hflag; [exact Hin | congruence].
Qed.

End WithTables.

End SeenFacts.

(** C2. An order taken in again is not inserted again and loses its flag,
    so its items stay out of the pick list; the customer report still
    lists it.  The ledger holds Ann's order A1 from the run before; this
    run fetches A1 again together with her new orders A2 and A3.  The
    ledger keeps one row and one item for A1, with [is_new = 0], the
    pick-list query returns the items of A2 and A3 only, and the report
    names A1 among Ann's three orders. *)
Theorem reingested_order_in_customer_report :
  let item s := {| Ledger.item_sku := s; Ledger.item_name := "shirt";
                   Ledger.item_quantity := 1 |} in
  let order n s := {| Ledger.orderNumber := n; Ledger.billTo_name := "Ann";
                      Ledger.orderDate := "2023-01-05 10:00:00";
                      Ledger.items := [item s] |} in
  let before :=
    {| Ledger.order_table :=
         [{| Ledger.order_number := "A1"; Ledger.customer_name := "Ann";
             Ledger.order_date := "2023-01-05 10:00:00";
             Ledger.is_new := true |}];
       Ledger.item_table :=
         [{| Ledger.ord_num := "A1"; Ledger.sku := "PREM-100-MED";
             Ledger.quantity := 1 |}] |} in
  let run :=
    Ledger.parse_awaiting_shipment_order_data
      LedgerSpec.no_revisions LedgerSpec.accepts_all
      [order "A1" "PREM-100-MED"; order "A2" "PREM-200-LRG";
       order "A3" "PREM-300-XL"] before [] in
  let after := fst (fst run) in
  snd run = None
  /\ map (fun r => (Ledger.order_number r, Ledger.is_new r))
         (Ledger.order_table after) =
     [("A1", false); ("A2", true); ("A3", true)]
  /\ map Ledger.ord_num (Ledger.item_table after) = ["A1"; "A2"; "A3"]
  /\ Ledger.grouped_new_items after =
     [("PREM-200-LRG", 1%N); ("PREM-300-XL", 1%N)]
  /\ Ledger.multiple_quantity_rows after = []
  /\ Ledger.customers_with_multiple_orders after "" =
     PickList.nl ++ "CUSTOMERS WITH MORE THAN ONE ORDER:"
       ++ PickList.nl ++ PickList.nl
       ++ "Ann - 3 Orders:" ++ PickList.nl
       ++ "A1A2A3" ++ PickList.nl ++ PickList.nl.
Proof. cbv zeta. repeat split. Qed.

(** C10. An order number that comes twice in one fetch is inserted at its
    first occurrence and flagged as seen at the second, each occurrence
    being logged with the flag of its own classification; its items stay
    out of the pick-list query of the run, yet the customer report lists
    it.  Bob's orders B1, B2, B3 are fetched, and B1 once more. *)
Theorem repeated_order_in_customer_report :
  let item s := {| Ledger.item_sku := s; Ledger.item_name := "shirt";
                   Ledger.item_quantity := 1 |} in
  let order n s := {| Ledger.orderNumber := n; Ledger.billTo_name := "Bob";
                      Ledger.orderDate := "2023-01-05 10:00:00";
                      Ledger.items := [item s] |} in
  let run :=
    Ledger.parse_awaiting_shipment_order_data
      LedgerSpec.no_revisions LedgerSpec.accepts_all
      [order "B1" "PREM-100-MED"; order "B2" "PREM-200-LRG";
       order "B3" "PREM-300-XL"; order "B1" "PREM-100-MED"]
      {| Ledger.order_table := []; Ledger.item_table := [] |} [] in
  let after := fst (fst run) in
  snd run = None
  /\ map (fun e => (Ledger.log_order_number e, Ledger.log_is_new e))
         (snd (fst run)) =
     [("B1", true); ("B2", true); ("B3", true); ("B1", false)]
  /\ map (fun r => (Ledger.order_number r, Ledger.is_new r))
         (Ledger.order_table after) =
     [("B1", false); ("B2", true); ("B3", true)]
  /\ Ledger.grouped_new_items after =
     [("PREM-200-LRG", 1%N); ("PREM-300-XL", 1%N)]
  /\ Ledger.customers_with_multiple_orders after "" =
     PickList.nl ++ "CUSTOMERS WITH MORE THAN ONE ORDER:"
       ++ PickList.nl ++ PickList.nl
       ++ "Bob - 3 Orders:" ++ PickList.nl
       ++ "B1B2B3" ++ PickList.nl ++ PickList.nl.
Proof. cbv zeta. repeat split. Qed.

(** * Further properties of the code *)

(** ** More of the SKU rules *)

Module RuleFacts.
Import Normalizer.

Lemma dict_get_set_same (k : string) (v : value) (d : dict) :
  dict_get k (dict_set k v d) = Some v.
Proof.
  induction d as [|[k' v'] d IH]; simpl.
  - now rewrite String.eqb_refl.
  - destruct (String.eqb k k') eqn:E; simpl.
    + now rewrite String.eqb_refl.
    + now rewrite E.
Qed.

Lemma dict_get_set_other (k k' : string) (v : value) (d : dict) :
  k <> k' -> dict_get k (dict_set k' v d) = dict_get k d.
Proof.
  intros Hne. induction d as [|[k'' v''] d IH]; simpl.
  - destruct (String.eqb_spec k k'); [contradiction | reflexivity].
  - destruct (String.eqb_spec k' k'') as [<- | Hk]; simpl.
    + destruct (String.eqb_spec k k'); [contradiction | reflexivity].
    + destruct (String.eqb k k''); [reflexivity | exact IH].
Qed.

Lemma dict_set_keeps_keys (k k' : string) (v : value) (d : dict) :
  dict_get k d <> None -> dict_get k (dict_set k' v d) <> None.
Proof.
  intros H. destruct (String.eqb_spec k k') as [-> | Hne].
  - rewrite dict_get_set_same. discriminate.
  - now rewrite dict_get_set_other.
Qed.

(** What [group_append] can do to the dictionary. *)
Lemma group_append_shape (key entry : string) (d d' : dict) :
  group_append key entry d = Ok d' -> exists v, d' = dict_set key v d.
Proof.
  unfold group_append.
  destruct (dict_get key d) as [[l | s] |]; intros H; inversion H; eauto.
Qed.

(** The [try] block leaves the dictionary alone or sets one key. *)
Lemma try_body_shape (SKU : string) (quantity : N) (d d' : dict) :
  try_body SKU quantity d = Ok d' ->
  d' = d \/ exists k v, d' = dict_set k v d.
Proof.
  unfold try_body, set_ungrouped.
  repeat match goal with
         | |- context [if ?b then _ else _] => destruct b
         end;
    unfold bind;
    repeat match goal with
           | |- context [match ?r with Ok _ => _ | Raise _ => _ end] =>
               lazymatch r with
               | group_append _ _ _ => fail
               | _ => destruct r as [? | ?]
               end
           | |- context [let '(_, _) := ?p in _] => destruct p
           end;
    intros H; try discriminate H;
    try (apply group_append_shape in H; destruct H as [v ->]; right; eauto);
    try (inversion H; subst; eauto).
Qed.

Lemma step_keeps_keys (k : string) (st : dict * list exn) (row : string * N) :
  dict_get k (fst st) <> None -> dict_get k (fst (step st row)) <> None.
Proof.
  destruct st as [d out], row as [SKU quantity]. simpl. intros H.
  destruct (try_body SKU quantity d) as [d' | e] eqn:E; simpl.
  - destruct (try_body_shape _ _ _ _ E) as [-> | (k' & v & ->)];
      [exact H | now apply dict_set_keeps_keys].
  - now apply dict_set_keeps_keys.
Qed.

(** The jeans rule on a SKU of three segments. *)
Lemma jeans_rule (brand color size : string) (quantity : N) (d : dict) :
  brand = "PremJeans" \/ brand = "PremiereJeans" ->
  Py.no_dash color = true -> Py.no_dash size = true ->
  try_body (brand ++ "-" ++ color ++ "-" ++ size) quantity d =
  group_append ("PremJeans-" ++ color) (entry size quantity) d.
Proof.
  intros Hb Hc Hz.
  assert (Hbrand : Py.no_dash brand = true)
    by (destruct Hb as [-> | ->]; reflexivity).
  unfold try_body.
  rewrite (split3 brand color size Hbrand Hc Hz).
  destruct Hb as [-> | ->]; reflexivity.
Qed.

End RuleFacts.





(** X3. A jeans SKU that does not have three segments fails at the
    unpacking of the split: the handler stores it under its raw text with
    its quantity and prints the ValueError. *)
Theorem jeans_other_counts_ungrouped
        (SKU : string) (quantity : N) (d : dict) (out : list exn) :
  hd "" (Py.split SKU) = "PremJeans" \/ hd "" (Py.split SKU) = "PremiereJeans" ->
  List.length (Py.split SKU) <> 3 ->
  Normalizer.step (d, out) (SKU, quantity) =
  (Normalizer.set_ungrouped SKU quantity d, (out ++ [ValueError])%list).
Proof.
  intros Hb Hlen. unfold Normalizer.step, Normalizer.try_body.
  assert (Hun : Normalizer.unpack3 (Py.split SKU) = Raise ValueError).
  { destruct (Py.split SKU) as [|a [|b [|c [|e l]]]]; try reflexivity.
    now contradiction Hlen. }
  destruct Hb as [-> | ->]; simpl; now rewrite Hun.
Qed.

Lemma jeans_other_counts_ungrouped_witness :
  Normalizer.step ([], []) ("PremJeans-BLK", 2%N) =
  ([("PremJeans-BLK", VStr "2")], [ValueError]).
Proof.
  refine (jeans_other_counts_ungrouped "PremJeans-BLK" 2 [] []
            (or_introl eq_refl) _).
  discriminate.
Defined.

(** X4. A PREM, PremTee or PremiereLSTee SKU with neither three nor four
    segments passes through an iteration without a trace: the dictionary
    and the printed output are as before. *)
Theorem prem_tee_other_counts_dropped
        (SKU : string) (quantity : N) (d : dict) (out : list exn) :
  hd "" (Py.split SKU) = "PREM" \/ hd "" (Py.split SKU) = "PremTee"
  \/ hd "" (Py.split SKU) = "PremiereLSTee" ->
  List.length (Py.split SKU) <> 3 ->
  List.length (Py.split SKU) <> 4 ->
  Normalizer.step (d, out) (SKU, quantity) = (d, out).
Proof.
  intros Hb H3 H4. unfold Normalizer.step.
  now rewrite (NormalizerFacts.segment_count_falls_through SKU quantity d Hb H3 H4).
Qed.

Lemma prem_tee_other_counts_dropped_witness :
  Normalizer.step ([("PREM-100", VList ["MED-1"])], [])
                  ("PREM-100-RED-MED-X", 2%N) =
  ([("PREM-100", VList ["MED-1"])], []).
Proof.
  refine (prem_tee_other_counts_dropped "PREM-100-RED-MED-X" 2
            [("PREM-100", VList ["MED-1"])] [] (or_introl eq_refl) _ _);
    discriminate.
Defined.

(** X5. A SKU of any other brand is stored under its raw text with the
    decimal text of its quantity, replacing whatever that key held, a
    list of sizes included; no other key changes and nothing is
    printed. *)
Theorem other_brand_replaces_entry
        (SKU : string) (quantity : N) (d : dict) (out : list exn) :
  let brand := hd "" (Py.split SKU) in
  brand <> "PREM" -> brand <> "PremJeans" -> brand <> "PremiereJeans" ->
  brand <> "PremTee" -> brand <> "PremiereLSTee" ->
  let st := Normalizer.step (d, out) (SKU, quantity) in
  snd st = out
  /\ dict_get SKU (fst st) = Some (VStr (Py.str quantity))
  /\ forall k, k <> SKU -> dict_get k (fst st) = dict_get k d.
Proof.
  intros brand H1 H2 H3 H4 H5 st. unfold st, Normalizer.step.
  rewrite (NormalizerFacts.other_brand_ungrouped SKU quantity d H1 H2 H3 H4 H5).
  simpl. split; [reflexivity|]. split.
  - apply RuleFacts.dict_get_set_same.
  - intros k Hk. now apply RuleFacts.dict_get_set_other.
Qed.

Lemma other_brand_replaces_entry_witness :
  dict_get "524-PremTee"
    (fst (Normalizer.step ([("524-PremTee", VList ["XL-1"])], [])
                          ("524-PremTee", 3%N))) = Some (VStr "3").
Proof.
  refine (proj1 (proj2 (other_brand_replaces_entry "524-PremTee" 3
                          [("524-PremTee", VList ["XL-1"])] [] _ _ _ _ _)));
    discriminate.
Defined.

(** X6. A three-segment PREM SKU with an empty style fails at [style[-1]]:
    the handler stores it under its raw text and prints the IndexError. *)
Theorem prem_empty_style_ungrouped
        (size : string) (quantity : N) (d : dict) (out : list exn) :
  Py.no_dash size = true ->
  Normalizer.step (d, out) ("PREM--" ++ size, quantity) =
  (Normalizer.set_ungrouped ("PREM--" ++ size) quantity d,
   (out ++ [IndexError])%list).
Proof.
  intros Hz. unfold Normalizer.step, Normalizer.try_body.
  change ("PREM--" ++ size) with ("PREM" ++ "-" ++ "" ++ "-" ++ size).
  rewrite (split3 "PREM" "" size eq_refl eq_refl Hz).
  reflexivity.
Qed.

Lemma prem_empty_style_ungrouped_witness :
  Normalizer.step ([], []) ("PREM--XL", 1%N) =
  ([("PREM--XL", VStr "1")], [IndexError]).
Proof. exact (prem_empty_style_ungrouped "XL" 1 [] [] eq_refl). Defined.



(** X8. When the key of a jeans group is held by an ungrouped quantity,
    the append fails with AttributeError and the SKU is stored on its own
    under its raw text; the quantity under the group key stays. *)
Theorem jeans_key_held_by_quantity
        (brand color size s : string) (quantity : N) (d : dict)
        (out : list exn) :
  brand = "PremJeans" \/ brand = "PremiereJeans" ->
  Py.no_dash color = true -> Py.no_dash size = true ->
  dict_get ("PremJeans-" ++ color) d = Some (VStr s) ->
  let SKU := brand ++ "-" ++ color ++ "-" ++ size in
  let st := Normalizer.step (d, out) (SKU, quantity) in
  st = (Normalizer.set_ungrouped SKU quantity d, (out ++ [AttributeError])%list)
  /\ dict_get SKU (fst st) = Some (VStr (Py.str quantity))
  /\ dict_get ("PremJeans-" ++ color) (fst st) = Some (VStr s).
Proof.
  intros Hb Hc Hz Hget SKU st.
  assert (Hst : st = (Normalizer.set_ungrouped SKU quantity d,
                      (out ++ [AttributeError])%list)).
  { unfold st, Normalizer.step, SKU.
    rewrite (RuleFacts.jeans_rule brand color size quantity d Hb Hc Hz).
    unfold Normalizer.group_append. now rewrite Hget. }
  rewrite Hst. cbn [fst snd]. split; [reflexivity|]. split.
  - apply RuleFacts.dict_get_set_same.
  - unfold Normalizer.set_ungrouped.
    rewrite RuleFacts.dict_get_set_other; [exact Hget|].
    intros Heq.
    assert (Hbrand : Py.no_dash brand = true)
      by (destruct Hb as [-> | ->]; reflexivity).
    assert (Hk : Py.split ("PremJeans-" ++ color) = ["PremJeans"; color]).
    { change ("PremJeans-" ++ color)
        with ("PremJeans" ++ String Py.dash color).
      rewrite split_field by reflexivity. now rewrite split_no_dash. }
    assert (Hs : Py.split SKU = [brand; color; size])
      by apply (split3 brand color size Hbrand Hc Hz).
    rewrite <- Heq, Hk in Hs. discriminate Hs.
Qed.

Lemma jeans_key_held_by_quantity_witness :
  Normalizer.step ([("PremJeans-BLK", VStr "3")], [ValueError])
                  ("PremiereJeans-BLK-32", 1%N) =
  ([("PremJeans-BLK", VStr "3"); ("PremiereJeans-BLK-32", VStr "1")],
   [ValueError; AttributeError]).
Proof.
  exact (proj1 (jeans_key_held_by_quantity "PremiereJeans" "BLK" "32" "3" 1
                  [("PremJeans-BLK", VStr "3")] [ValueError]
                  (or_intror eq_refl) eq_refl eq_refl eq_refl)).
Defined.

(** X9. Normalisation never removes a key: whatever rows follow, a key of
    the dictionary is still a key afterwards. *)
Theorem normalize_rows_keeps_keys
        (rows : list (string * N)) (d : dict) (k : string) :
  dict_get k d <> None ->
  dict_get k (fst (Normalizer.normalize_rows rows d)) <> None.
Proof.
  unfold Normalizer.normalize_rows. generalize (@nil exn) as out.
  revert d. induction rows as [|row rows IH]; intros d out H; cbn [fold_left].
  - exact H.
  - destruct (Normalizer.step (d, out) row) as [d' out'] eqn:E.
    apply IH.
    pose proof (RuleFacts.step_keeps_keys k (d, out) row H) as Hk.
    now rewrite E in Hk.
Qed.

Lemma normalize_rows_keeps_keys_witness :
  dict_get "PREM-100"
    (fst (Normalizer.normalize_rows
            [("PREM-100-LRG", 2%N); ("WIDGET-1", 1%N)]
            [("PREM-100", VList ["MED-1"])])) <> None.
Proof.
  refine (normalize_rows_keeps_keys
            [("PREM-100-LRG", 2%N); ("WIDGET-1", 1%N)]
            [("PREM-100", VList ["MED-1"])] "PREM-100" _).
  discriminate.
Defined.

(** ** The grouped query *)

Module QueryFacts.
Import Ledger QuerySpec.





End QueryFacts.


(** ** More of the pick-list builder *)

Module BuilderFacts.
Import PickList Spec.

(** The loop over a dictionary whose front part renders. *)
Lemma render_groups_front (m : grouping_map) (d : dict) :
  well_formed m ->
  render_groups (encode m ++ d)%list =
  ((rendered m ++ fst (render_groups d))%list,
   lines <- snd (render_groups d) ;; Ok (map render_line m ++ lines)%list).
Proof.
  induction 1 as [|[k g] m Hg _ IH]; simpl.
  - destruct (render_groups d) as [d' [ls | e]]; reflexivity.
  - simpl in Hg. rewrite (PickListFacts.render_group_ok k g Hg), IH.
    destruct (render_groups d) as [d' [ls | e]]; reflexivity.
Qed.

Lemma in_dict_set (k : string) (v : value) (d : dict) :
  In (k, v) (dict_set k v d).
Proof.
  induction d as [|[k' v'] d IH]; simpl; [now left|].
  destruct (String.eqb k k'); [now left | now right].
Qed.

(** The stable sort keeps apart what the comparison cannot tell apart. *)
Lemma insert_filter_rank {A : Type} (key : A -> nat) (r : nat) (x : A)
      (l : list A) :
  filter (fun a => Nat.eqb (key a) r)
         (insert (fun a b => Nat.leb (key a) (key b)) x l) =
  filter (fun a => Nat.eqb (key a) r) (x :: l).
Proof.
  induction l as [|y l IH]; [reflexivity|].
  cbn [insert]. destruct (Nat.leb_spec (key x) (key y)) as [Hle | Hlt];
    [reflexivity|].
  cbn [filter] in *. rewrite IH.
  destruct (Nat.eqb_spec (key x) r) as [Hx | Hx];
    destruct (Nat.eqb_spec (key y) r) as [Hy | Hy]; try reflexivity.
  lia.
Qed.

Lemma sort_filter_rank {A : Type} (key : A -> nat) (r : nat) (l : list A) :
  filter (fun a => Nat.eqb (key a) r)
         (sort (fun a b => Nat.leb (key a) (key b)) l) =
  filter (fun a => Nat.eqb (key a) r) l.
Proof.
  induction l as [|x l IH]; [reflexivity|].
  cbn [sort fold_right]. fold (sort (fun a b => Nat.leb (key a) (key b)) l).
  rewrite insert_filter_rank. cbn [filter]. now rewrite IH.
Qed.

End BuilderFacts.

(** X11. When a list group holds an entry of unknown class, the groups in
    front of it have already been rewritten in place by the time the
    KeyError is raised: the dictionary is left half consumed, the failing
    group and the groups behind it as they were, and no file is
    written. *)
Theorem failed_build_consumes_front
        (m : Spec.grouping_map) (k : string) (l : list string) (x : string)
        (rest : dict) (file : string) :
  Spec.well_formed m ->
  In x l -> Spec.unknown (Py.prefix 2 x) ->
  exists key,
    Spec.unknown key
    /\ PickList.create_pick_list (Spec.encode m ++ (k, VList l) :: rest)%list file =
       {| PickList.grouping := (Spec.rendered m ++ (k, VList l) :: rest)%list;
          PickList.orders_file := file;
          PickList.raised := Some (KeyError key) |}.
Proof.
  intros Hwf Hin Hx.
  destruct (UnknownSizeFacts.render_group_unknown k l x Hin Hx)
    as (key & Hr & Hk).
  exists key. split; [exact Hk|].
  unfold PickList.create_pick_list.
  rewrite (BuilderFacts.render_groups_front m _ Hwf).
  cbn [PickList.render_groups]. rewrite Hr. reflexivity.
Qed.

Lemma failed_build_consumes_front_witness :
  exists key,
    Spec.unknown key
    /\ PickList.create_pick_list
         [("PREM-100", VList ["MED-1"; "LRG-2"]);
          ("PREM-200", VList ["XXL-1"]);
          ("PREM-300", VList ["XL-1"])] "kept" =
       {| PickList.grouping :=
            [("PREM-100", VList ["MED"; "LRG (2)"]);
             ("PREM-200", VList ["XXL-1"]);
             ("PREM-300", VList ["XL-1"])];
          PickList.orders_file := "kept";
          PickList.raised := Some (KeyError key) |}.
Proof.
  refine (failed_build_consumes_front
            [("PREM-100", Spec.Sized [("MED", 1%N); ("LRG", 2%N)])]
            "PREM-200" ["XXL-1"] "XXL-1" [("PREM-300", VList ["XL-1"])]
            "kept" _ _ _).
  - repeat constructor.
  - now left.
  - reflexivity.
Defined.

(** X12. The sort of a group is stable: it brings the entries into the
    order of the size table, and entries of one class stay in the order
    in which they were appended. *)
Theorem size_sort_is_stable (es : list (string * N)) :
  Forall Spec.entry_ok es ->
  exists sorted,
    PickList.sort_by_size (map Spec.encode_entry es) =
      Ok (map Spec.encode_entry sorted)
    /\ Permutation es sorted
    /\ Sorted (fun a b => Spec.size_rank (fst a) <= Spec.size_rank (fst b))
              sorted
    /\ forall r,
         filter (fun e => Nat.eqb (Spec.size_rank (fst e)) r) sorted =
         filter (fun e => Nat.eqb (Spec.size_rank (fst e)) r) es.
Proof.
  intros Hok. exists (sort Spec.size_le es).
  split; [now apply PickListFacts.sort_by_size_entries|].
  split; [apply sort_perm|]. split.
  - pose proof (sort_sorted _ Spec.size_le size_le_total es) as Hs.
    induction Hs as [|a l Hl IH Hhd]; constructor; [exact IH|].
    destruct Hhd as [|b l' Hab]; constructor.
    unfold le_prop, Spec.size_le in Hab. now apply Nat.leb_le.
  - intros r.
    apply (BuilderFacts.sort_filter_rank
             (fun e : string * N => Spec.size_rank (fst e)) r es).
Qed.

Lemma size_sort_is_stable_witness :
  exists sorted,
    PickList.sort_by_size ["XLT-1"; "MED-2"; "XL-3"] =
      Ok (map Spec.encode_entry sorted)
    /\ Permutation [("XLT", 1%N); ("MED", 2%N); ("XL", 3%N)] sorted
    /\ Sorted (fun a b => Spec.size_rank (fst a) <= Spec.size_rank (fst b))
              sorted
    /\ forall r,
         filter (fun e => Nat.eqb (Spec.size_rank (fst e)) r) sorted =
         filter (fun e => Nat.eqb (Spec.size_rank (fst e)) r)
                [("XLT", 1%N); ("MED", 2%N); ("XL", 3%N)].
Proof.
  refine (size_sort_is_stable [("XLT", 1%N); ("MED", 2%N); ("XL", 3%N)] _).
  repeat constructor.
Defined.

(** X13. The PREM rules enter the size XXL as it stands, and XXL has no
    class in the size table: once such a SKU has been grouped, building
    the pick list raises and writes nothing. *)
Theorem prem_xxl_stops_the_build
        (seg1 seg2 : string) (quantity : N) (d : dict) (out : list exn)
        (file : string) :
  Py.no_dash seg1 = true -> Py.no_dash seg2 = true ->
  (dict_get ("PREM-" ++ seg1 ++ "-" ++ seg2) d = None
   \/ exists l, dict_get ("PREM-" ++ seg1 ++ "-" ++ seg2) d = Some (VList l)) ->
  let d' := fst (Normalizer.step
                   (d, out)
                   ("PREM-" ++ seg1 ++ "-" ++ seg2 ++ "-XXL", quantity)) in
  exists e,
    PickList.raised (PickList.create_pick_list d' file) = Some e
    /\ PickList.orders_file (PickList.create_pick_list d' file) = file.
Proof.
  intros H1 H2 Hkey d'.
  assert (Hbody :
            Normalizer.try_body
              ("PREM-" ++ seg1 ++ "-" ++ seg2 ++ "-XXL") quantity d =
            Normalizer.group_append ("PREM-" ++ seg1 ++ "-" ++ seg2)
              (Normalizer.entry "XXL" quantity) d).
  { unfold Normalizer.try_body.
    change ("PREM-" ++ seg1 ++ "-" ++ seg2 ++ "-XXL")
      with ("PREM" ++ "-" ++ seg1 ++ "-" ++ seg2 ++ "-" ++ "XXL").
    now rewrite (split4 "PREM" seg1 seg2 "XXL" eq_refl H1 H2 eq_refl). }
  assert (Hin : exists l,
             In (Normalizer.entry "XXL" quantity) l
             /\ In ("PREM-" ++ seg1 ++ "-" ++ seg2, VList l) d').
  { unfold d', Normalizer.step. rewrite Hbody. unfold Normalizer.group_append.
    destruct Hkey as [Hnone | [l Hl]].
    - rewrite Hnone. cbn [fst].
      exists [Normalizer.entry "XXL" quantity]. split; [now left|].
      apply BuilderFacts.in_dict_set.
    - rewrite Hl. cbn [fst].
      exists (l ++ [Normalizer.entry "XXL" quantity])%list.
      split; [|apply BuilderFacts.in_dict_set].
      apply in_or_app. right. now left. }
  destruct Hin as (l & Hx & Hd).
  destruct (UnknownSizeFacts.render_groups_unknown d' _ l _ Hd Hx
              (TableFacts.unrecognized_entry "XXL" quantity eq_refl))
    as (d'' & e & Hr).
  exists e. unfold PickList.create_pick_list. rewrite Hr. now split.
Qed.

Lemma prem_xxl_stops_the_build_witness :
  exists e,
    PickList.raised
      (PickList.create_pick_list
         (fst (Normalizer.step ([], []) ("PREM-812-RED-XXL", 1%N))) "kept")
    = Some e
    /\ PickList.orders_file
         (PickList.create_pick_list
            (fst (Normalizer.step ([], []) ("PREM-812-RED-XXL", 1%N))) "kept")
       = "kept".
Proof.
  exact (prem_xxl_stops_the_build "812" "RED" 1 [] [] "kept"
           eq_refl eq_refl (or_introl eq_refl)).
Defined.

(** ** A run of the ledger *)

Module RunFacts.
Import Ledger LedgerSpec RunSpec.

Lemma select_none_iff (n : string) (L : ledger) :
  select_order n L = None <-> ~ In n (numbers L).
Proof.
  unfold select_order, numbers.
  induction (order_table L) as [|r t IH]; simpl; [tauto|].
  unfold has_number at 1.
  destruct (String.eqb_spec (order_number r) n) as [E | E].
  - split; [discriminate | intros H; exfalso; apply H; now left].
  - rewrite IH. tauto.
Qed.

Lemma flag_row_lowered (n : string) (r : order_row) :
  same_order_flag_lowered r (flag_row n r).
Proof.
  unfold same_order_flag_lowered, flag_row.
  destruct (has_number n r); simpl; repeat split; auto. discriminate.
Qed.

Lemma lowered_refl (r : order_row) : same_order_flag_lowered r r.
Proof. unfold same_order_flag_lowered. tauto. Qed.

Lemma lowered_trans (a b c : order_row) :
  same_order_flag_lowered a b -> same_order_flag_lowered b c ->
  same_order_flag_lowered a c.
Proof.
  unfold same_order_flag_lowered.
  intros (H1 & H2 & H3 & H4) (H5 & H6 & H7 & H8).
  repeat split; try congruence. auto.
Qed.

Lemma Forall2_refl_lowered (t : list order_row) :
  Forall2 same_order_flag_lowered t t.
Proof. induction t; constructor; [apply lowered_refl | assumption]. Qed.

Lemma Forall2_trans_lowered (a b c : list order_row) :
  Forall2 same_order_flag_lowered a b -> Forall2 same_order_flag_lowered b c ->
  Forall2 same_order_flag_lowered a c.
Proof.
  intros Hab. revert c. induction Hab as [|x y a b Hxy _ IH]; intros c Hbc.
  - inversion Hbc. constructor.
  - inversion Hbc as [|? z ? c' Hyz Hbc']; subst.
    constructor; [eapply lowered_trans; eauto | now apply IH].
Qed.

Section WithTables.

Variable sku_dict : string -> option string.
Variable item_accepted : item_row -> bool.

Lemma numbers_after_parse (o : api_order) (L : ledger) :
  numbers (fst (parse_order sku_dict item_accepted o L)) =
  match select_order (orderNumber o) L with
  | Some _ => numbers L
  | None => (numbers L ++ [orderNumber o])%list
  end.
Proof.
  unfold numbers. rewrite SeenFacts.order_table_after_parse.
  destruct (select_order (orderNumber o) L).
  - rewrite map_map. apply map_ext. intros r. unfold flag_row.
    now destruct (has_number (orderNumber o) r).
  - now rewrite map_app.
Qed.

Lemma items_after_parse (o : api_order) (L : ledger) :
  exists added,
    item_table (fst (parse_order sku_dict item_accepted o L)) = (item_table L ++ added)%list.
Proof.
  unfold parse_order.
  destruct (select_order (orderNumber o) L).
  - exists []. simpl. now rewrite app_nil_r.
  - rewrite (LedgerFacts.insert_items_spec sku_dict item_accepted o).
    destruct (forallb _ _); simpl; eauto.
Qed.

(** One order: the rows there were stay, in place, flags lowered at
    most; what is new comes behind them. *)
Lemma orders_after_parse (o : api_order) (L : ledger) :
  exists olds news,
    order_table (fst (parse_order sku_dict item_accepted o L)) = (olds ++ news)%list
    /\ Forall2 same_order_flag_lowered (order_table L) olds.
Proof.
  rewrite SeenFacts.order_table_after_parse.
  destruct (select_order (orderNumber o) L).
  - exists (map (flag_row (orderNumber o)) (order_table L)), [].
    rewrite app_nil_r. split; [reflexivity|].
    induction (order_table L); simpl; constructor;
      [apply flag_row_lowered | assumption].
  - exists (order_table L), [order_row_of o].
    split; [reflexivity | apply Forall2_refl_lowered].
Qed.

Lemma unfetched_row_kept (o : api_order) (L : ledger) (r : order_row) :
  In r (order_table L) -> order_number r <> orderNumber o ->
  In r (order_table (fst (parse_order sku_dict item_accepted o L))).
Proof.
  intros Hin Hne. rewrite SeenFacts.order_table_after_parse.
  destruct (select_order (orderNumber o) L).
  - apply in_map_iff. exists r. split; [|exact Hin].
    unfold flag_row, has_number.
    destruct (String.eqb_spec (order_number r) (orderNumber o));
      [contradiction | reflexivity].
  - apply in_or_app. now left.
Qed.

(** An order whose number is known never touches the item table and
    never fails. *)
Lemma parse_known (o : api_order) (L : ledger) :
  select_order (orderNumber o) L <> None ->
  exists e,
    snd (parse_order sku_dict item_accepted o L) = Ok e
    /\ log_is_new e = false
    /\ log_order_number e = orderNumber o
    /\ item_table (fst (parse_order sku_dict item_accepted o L)) = item_table L
    /\ order_table (fst (parse_order sku_dict item_accepted o L)) =
       map (flag_row (orderNumber o)) (order_table L).
Proof.
  intros H. unfold parse_order.
  destruct (select_order (orderNumber o) L); [|contradiction].
  simpl. eexists. repeat split.
Qed.

Lemma parse_entry (o : api_order) (L : ledger) (e : log_dict) :
  snd (parse_order sku_dict item_accepted o L) = Ok e ->
  log_order_number e = orderNumber o
  /\ log_is_new e =
     match select_order (orderNumber o) L with
     | Some _ => false
     | None => true
     end.
Proof.
  unfold parse_order.
  destruct (select_order (orderNumber o) L).
  - simpl. intros H. inversion H. now split.
  - destruct (insert_items _ _ _ _ _ _) as [L' [curr | ex]]; simpl;
      intros H; inversion H. now split.
Qed.

(** The loop, one order at a time. *)
Lemma parse_all_cons (o : api_order) (rest : list api_order) (L : ledger)
      (log : list log_dict) :
  parse_awaiting_shipment_order_data sku_dict item_accepted (o :: rest) L log =
  match snd (parse_order sku_dict item_accepted o L) with
  | Raise e => (fst (parse_order sku_dict item_accepted o L), log, Some e)
  | Ok entry => parse_awaiting_shipment_order_data sku_dict item_accepted rest (fst (parse_order sku_dict item_accepted o L)) (log ++ [entry])%list
  end.
Proof.
  simpl. now destruct (parse_order sku_dict item_accepted o L) as [L' [entry | e]].
Qed.

End WithTables.

End RunFacts.

Module FetchFacts.
Import Ledger LedgerSpec RunSpec.

Lemma existsb_eqb_in (n : string) (l : list string) :
  existsb (String.eqb n) l = true <-> In n l.
Proof.
  rewrite existsb_exists. split.
  - intros (x & Hx & E). apply String.eqb_eq in E. now subst.
  - intros H. exists n. split; [exact H | apply String.eqb_refl].
Qed.

Lemma flag_fetched_cons (n : string) (ns : list string) (r : order_row) :
  flag_fetched ns (flag_row n r) = flag_fetched (n :: ns) r.
Proof.
  unfold flag_fetched, flag_row, has_number. cbn [existsb].
  destruct (String.eqb (order_number r) n); cbn [order_number orb];
    [|reflexivity].
  now destruct (existsb (String.eqb (order_number r)) ns).
Qed.

Section WithTables.

Variable sku_dict : string -> option string.
Variable item_accepted : item_row -> bool.

Lemma numbers_unique_step (o : api_order) (L : ledger) :
  NoDup (numbers L) ->
  NoDup (numbers (fst (parse_order sku_dict item_accepted o L))).
Proof.
  intros Hnd. rewrite RunFacts.numbers_after_parse.
  destruct (select_order (orderNumber o) L) eqn:E; [exact Hnd|].
  apply RunFacts.select_none_iff in E.
  apply NoDup_app.
  - exact Hnd.
  - constructor; [intros [] | constructor].
  - intros n Hn [<- | []]. contradiction.
Qed.

Lemma orders_after_run (orders : list api_order) (L : ledger)
      (log : list log_dict) :
  let L' := fst (fst (parse_awaiting_shipment_order_data
                        sku_dict item_accepted orders L log)) in
  (exists added, item_table L' = (item_table L ++ added)%list)
  /\ exists olds news,
       order_table L' = (olds ++ news)%list
       /\ Forall2 same_order_flag_lowered (order_table L) olds.
Proof.
  revert L log. induction orders as [|o rest IH]; intros L log.
  - simpl. split; [exists []; now rewrite app_nil_r|].
    exists (order_table L), []. rewrite app_nil_r.
    split; [reflexivity | apply RunFacts.Forall2_refl_lowered].
  - rewrite RunFacts.parse_all_cons.
    destruct (RunFacts.items_after_parse sku_dict item_accepted o L)
      as [added1 Hit1].
    destruct (RunFacts.orders_after_parse sku_dict item_accepted o L)
      as (olds1 & news1 & Hot1 & Hf1).
    destruct (snd (parse_order sku_dict item_accepted o L)) as [entry | e].
    + specialize (IH (fst (parse_order sku_dict item_accepted o L))
                     (log ++ [entry])%list).
      cbv zeta in IH. destruct IH as ([added Hit] & olds & news & Hot & Hf).
      cbv zeta. split.
      * exists (added1 ++ added)%list. now rewrite Hit, Hit1, app_assoc.
      * rewrite Hot1 in Hf.
        apply Forall2_app_inv_l in Hf.
        destruct Hf as (o1 & o2 & Ho1 & Ho2 & ->).
        exists o1, (o2 ++ news)%list. split.
        -- now rewrite Hot, app_assoc.
        -- eapply RunFacts.Forall2_trans_lowered; eauto.
    + cbv zeta. cbn [fst]. split; [now exists added1 | now exists olds1, news1].
Qed.

Lemma unfetched_row_kept_run (orders : list api_order) (L : ledger)
      (log : list log_dict) (r : order_row) :
  In r (order_table L) ->
  ~ In (order_number r) (map orderNumber orders) ->
  In r (order_table
          (fst (fst (parse_awaiting_shipment_order_data
                       sku_dict item_accepted orders L log)))).
Proof.
  revert L log. induction orders as [|o rest IH]; intros L log Hin Hnot.
  - exact Hin.
  - rewrite RunFacts.parse_all_cons.
    assert (Hkept : In r (order_table
                            (fst (parse_order sku_dict item_accepted o L)))).
    { apply RunFacts.unfetched_row_kept; [exact Hin|].
      intros E. apply Hnot. left. now symmetry. }
    destruct (snd (parse_order sku_dict item_accepted o L)) as [entry | e].
    + apply IH; [exact Hkept|]. intros H. apply Hnot. now right.
    + exact Hkept.
Qed.

Lemma log_flags (orders : list api_order) (L : ledger) (log : list log_dict)
      (known : list string) :
  (forall n, In n known <-> In n (numbers L)) ->
  snd (parse_awaiting_shipment_order_data
         sku_dict item_accepted orders L log) = None ->
  map (fun e => (log_order_number e, log_is_new e))
      (snd (fst (parse_awaiting_shipment_order_data
                   sku_dict item_accepted orders L log))) =
  (map (fun e => (log_order_number e, log_is_new e)) log
     ++ combine (map orderNumber orders) (expected_flags known orders))%list.
Proof.
  revert L log known. induction orders as [|o rest IH]; intros L log known Hk.
  - simpl. intros _. now rewrite app_nil_r.
  - rewrite RunFacts.parse_all_cons.
    destruct (snd (parse_order sku_dict item_accepted o L)) as [entry | e] eqn:E;
      [|discriminate].
    intros Hnone.
    rewrite (IH _ _ (orderNumber o :: known)); [| |exact Hnone].
    + destruct (RunFacts.parse_entry sku_dict item_accepted o L entry E)
        as [Hnum Hflag].
      rewrite map_app. cbn [map combine expected_flags].
      rewrite <- app_assoc. cbn [app]. rewrite Hnum, Hflag.
      do 3 f_equal.
      destruct (select_order (orderNumber o) L) eqn:Es.
      * assert (Hin : In (orderNumber o) known).
        { apply Hk. destruct (in_dec string_dec (orderNumber o) (numbers L))
            as [H | H]; [exact H|].
          apply RunFacts.select_none_iff in H. congruence. }
        apply existsb_eqb_in in Hin. now rewrite Hin.
      * apply RunFacts.select_none_iff in Es.
        destruct (existsb (String.eqb (orderNumber o)) known) eqn:Ex;
          [|reflexivity].
        apply existsb_eqb_in in Ex. apply Hk in Ex. contradiction.
    + intros n. rewrite RunFacts.numbers_after_parse.
      destruct (select_order (orderNumber o) L) eqn:Es.
      * assert (Hin : In (orderNumber o) (numbers L)).
        { destruct (in_dec string_dec (orderNumber o) (numbers L))
            as [H | H]; [exact H|].
          apply RunFacts.select_none_iff in H. congruence. }
        simpl. rewrite Hk. split; [intros [<- | H]; assumption | auto].
      * simpl. rewrite in_app_iff, Hk. simpl. tauto.
Qed.

(** A fetch of orders that are all known. *)
Lemma known_fetch (orders : list api_order) (L : ledger)
      (log : list log_dict) :
  (forall o, In o orders -> select_order (orderNumber o) L <> None) ->
  parse_awaiting_shipment_order_data sku_dict item_accepted orders L log =
  ({| order_table :=
        map (flag_fetched (map orderNumber orders)) (order_table L);
      item_table := item_table L |},
   (log ++ map (old_entry sku_dict) orders)%list,
   None).
Proof.
  revert L log. induction orders as [|o rest IH]; intros L log Hknown.
  - simpl. rewrite app_nil_r. f_equal. f_equal.
    destruct L as [t its]. simpl. f_equal.
    induction t as [|r t IHt]; simpl; [reflexivity | now rewrite <- IHt].
  - cbn [parse_awaiting_shipment_order_data]. unfold parse_order.
    pose proof (Hknown o (or_introl eq_refl)) as Ho.
    destruct (select_order (orderNumber o) L) eqn:Es; [|contradiction].
    rewrite IH.
    + cbn [update_not_new order_table item_table map].
      rewrite map_map, <- app_assoc. cbn [app].
      f_equal. f_equal. f_equal.
      apply map_ext. intros r. apply flag_fetched_cons.
    + intros o' Ho'.
      pose proof (SeenFacts.select_persists sku_dict item_accepted
                    (orderNumber o') o L (Hknown o' (or_intror Ho'))) as Hp.
      unfold parse_order in Hp. now rewrite Es in Hp.
Qed.

(** After a fetch that ran to its end every fetched number is known. *)
Lemma fetched_are_known (orders : list api_order) (L : ledger)
      (log : list log_dict) :
  snd (parse_awaiting_shipment_order_data
         sku_dict item_accepted orders L log) = None ->
  forall o, In o orders ->
    select_order (orderNumber o)
      (fst (fst (parse_awaiting_shipment_order_data
                   sku_dict item_accepted orders L log))) <> None.
Proof.
  revert L log. induction orders as [|o rest IH]; intros L log Hnone o' Ho';
    [contradiction|].
  rewrite RunFacts.parse_all_cons in *.
  destruct (snd (parse_order sku_dict item_accepted o L)) as [entry | e] eqn:E;
    [|discriminate].
  destruct Ho' as [<- | Ho']; [|now apply IH].
  clear IH Hnone.
  generalize (SeenFacts.select_after_parse sku_dict item_accepted o L).
  generalize (fst (parse_order sku_dict item_accepted o L)) as L1.
  generalize (log ++ [entry])%list as log1.
  induction rest as [|o2 rest IHr]; intros log1 L1 H1; [exact H1|].
  rewrite RunFacts.parse_all_cons.
  pose proof (SeenFacts.select_persists sku_dict item_accepted
                (orderNumber o) o2 L1 H1) as H2.
  destruct (snd (parse_order sku_dict item_accepted o2 L1)); [|exact H2].
  now apply IHr.
Qed.

End WithTables.

End FetchFacts.

(** X14. Order numbers stay unique: a table without a repeated number has
    none after a fetch either, however often a number comes in the fetch
    and wherever the loop ends. *)
Theorem order_numbers_stay_unique
        (sku_dict : string -> option string)
        (item_accepted : Ledger.item_row -> bool)
        (orders : list Ledger.api_order) (L : Ledger.ledger)
        (log : list Ledger.log_dict) :
  NoDup (RunSpec.numbers L) ->
  NoDup (RunSpec.numbers
           (fst (fst (Ledger.parse_awaiting_shipment_order_data
                        sku_dict item_accepted orders L log)))).
Proof.
  revert L log. induction orders as [|o rest IH]; intros L log Hnd.
  - exact Hnd.
  - rewrite RunFacts.parse_all_cons.
    pose proof (FetchFacts.numbers_unique_step sku_dict item_accepted o L Hnd)
      as H1.
    destruct (snd (Ledger.parse_order sku_dict item_accepted o L));
      [now apply IH | exact H1].
Qed.

Lemma order_numbers_stay_unique_witness :
  NoDup (RunSpec.numbers
           (fst (fst (Ledger.parse_awaiting_shipment_order_data
                        LedgerSpec.no_revisions LedgerSpec.accepts_all
                        [Samples.order "B1" "Bob" []; Samples.order "B1" "Bob" []]
                        Samples.empty [])))).
Proof.
  refine (order_numbers_stay_unique LedgerSpec.no_revisions
            LedgerSpec.accepts_all
            [Samples.order "B1" "Bob" []; Samples.order "B1" "Bob" []]
            Samples.empty [] _).
  constructor.
Defined.

(** X15. The ledger only grows and flags only fall: after a fetch the item
    table is the old one with rows added behind it, and the order table
    begins with the old rows in their places, each with its number,
    customer and date unchanged and with [is_new] set only if it was set
    before; no row is deleted and no flag is raised. *)
Theorem ledger_only_grows
        (sku_dict : string -> option string)
        (item_accepted : Ledger.item_row -> bool)
        (orders : list Ledger.api_order) (L : Ledger.ledger)
        (log : list Ledger.log_dict) :
  let L' := fst (fst (Ledger.parse_awaiting_shipment_order_data
                        sku_dict item_accepted orders L log)) in
  (exists added,
     Ledger.item_table L' = (Ledger.item_table L ++ added)%list)
  /\ exists olds news,
       Ledger.order_table L' = (olds ++ news)%list
       /\ Forall2 RunSpec.same_order_flag_lowered (Ledger.order_table L) olds.
Proof. apply FetchFacts.orders_after_run. Qed.

(** X16. An order that is not fetched again keeps its flag: if it was new
    before the run it is new after it, and its items are returned once
    more by the query that feeds the pick list. *)
Theorem unfetched_order_stays_new
        (sku_dict : string -> option string)
        (item_accepted : Ledger.item_row -> bool)
        (orders : list Ledger.api_order) (L : Ledger.ledger)
        (log : list Ledger.log_dict)
        (r : Ledger.order_row) (it : Ledger.item_row) :
  In r (Ledger.order_table L) ->
  Ledger.is_new r = true ->
  ~ In (Ledger.order_number r) (map Ledger.orderNumber orders) ->
  In it (Ledger.item_table L) ->
  Ledger.ord_num it = Ledger.order_number r ->
  let L' := fst (fst (Ledger.parse_awaiting_shipment_order_data
                        sku_dict item_accepted orders L log)) in
  In r (Ledger.order_table L')
  /\ In (Ledger.sku it, Ledger.quantity it) (Ledger.new_item_rows L').
Proof.
  intros Hr Hnew Hnot Hit Hnum L'.
  assert (Hr' : In r (Ledger.order_table L'))
    by now apply FetchFacts.unfetched_row_kept_run.
  split; [exact Hr'|].
  destruct (FetchFacts.orders_after_run sku_dict item_accepted orders L log)
    as [[added Hadd] _].
  fold L' in Hadd.
  unfold Ledger.new_item_rows. apply in_flat_map.
  exists it. split.
  - rewrite Hadd. apply in_or_app. now left.
  - apply in_map_iff. exists r. split; [reflexivity|].
    apply filter_In. split; [exact Hr'|].
    now rewrite Hnum, String.eqb_refl, Hnew.
Qed.

Lemma unfetched_order_stays_new_witness :
  In ("PREM-100-MED", 1%N)
     (Ledger.new_item_rows
        (fst (fst (Ledger.parse_awaiting_shipment_order_data
                     LedgerSpec.no_revisions LedgerSpec.accepts_all
                     [Samples.order "A2" "Ann" []]
                     {| Ledger.order_table := [Samples.row "A1" "Ann" true];
                        Ledger.item_table :=
                          [Samples.item_of "A1" "PREM-100-MED" 1] |}
                     [])))).
Proof.
  refine (proj2 (unfetched_order_stays_new
                   LedgerSpec.no_revisions LedgerSpec.accepts_all
                   [Samples.order "A2" "Ann" []]
                   {| Ledger.order_table := [Samples.row "A1" "Ann" true];
                      Ledger.item_table :=
                        [Samples.item_of "A1" "PREM-100-MED" 1] |}
                   []
                   (Samples.row "A1" "Ann" true)
                   (Samples.item_of "A1" "PREM-100-MED" 1) _ _ _ _ _)).
  - now left.
  - reflexivity.
  - intros [H | []]. discriminate H.
  - now left.
  - reflexivity.
Defined.

(** X17. In a fetch that runs to its end the log gets one entry per
    fetched order, in fetch order, and the entry says new exactly when
    the order's number was neither in the ledger before the run nor met
    earlier in the same fetch. *)
Theorem log_flags_follow_fetch
        (sku_dict : string -> option string)
        (item_accepted : Ledger.item_row -> bool)
        (orders : list Ledger.api_order) (L : Ledger.ledger)
        (log : list Ledger.log_dict) :
  snd (Ledger.parse_awaiting_shipment_order_data
         sku_dict item_accepted orders L log) = None ->
  map (fun e => (Ledger.log_order_number e, Ledger.log_is_new e))
      (snd (fst (Ledger.parse_awaiting_shipment_order_data
                   sku_dict item_accepted orders L log))) =
  (map (fun e => (Ledger.log_order_number e, Ledger.log_is_new e)) log
     ++ combine (map Ledger.orderNumber orders)
                (RunSpec.expected_flags (RunSpec.numbers L) orders))%list.
Proof.
  apply FetchFacts.log_flags. intros n. reflexivity.
Qed.

Lemma log_flags_follow_fetch_witness :
  map (fun e => (Ledger.log_order_number e, Ledger.log_is_new e))
      (snd (fst (Ledger.parse_awaiting_shipment_order_data
                   LedgerSpec.no_revisions LedgerSpec.accepts_all
                   [Samples.order "A1" "Ann" []; Samples.order "A2" "Ann" [];
                    Samples.order "A2" "Ann" []]
                   {| Ledger.order_table := [Samples.row "A1" "Ann" true];
                      Ledger.item_table := [] |}
                   []))) =
  [("A1", false); ("A2", true); ("A2", false)].
Proof.
  exact (log_flags_follow_fetch LedgerSpec.no_revisions LedgerSpec.accepts_all
           [Samples.order "A1" "Ann" []; Samples.order "A2" "Ann" [];
            Samples.order "A2" "Ann" []]
           {| Ledger.order_table := [Samples.row "A1" "Ann" true];
              Ledger.item_table := [] |}
           [] eq_refl).
Defined.

(** X18. Taking in an order whose number the ledger holds inserts nothing:
    the item table is untouched, the order table keeps its length and its
    numbers, the rows of that number have [is_new = 0] afterwards, and no
    row's flag goes from 0 to 1. *)
Theorem known_order_only_loses_flag
        (sku_dict : string -> option string)
        (item_accepted : Ledger.item_row -> bool)
        (o : Ledger.api_order) (L : Ledger.ledger) (r : Ledger.order_row) :
  Ledger.select_order (Ledger.orderNumber o) L = Some r ->
  let L' := fst (Ledger.parse_order sku_dict item_accepted o L) in
  Ledger.item_table L' = Ledger.item_table L
  /\ List.length (Ledger.order_table L') = List.length (Ledger.order_table L)
  /\ map Ledger.order_number (Ledger.order_table L') =
     map Ledger.order_number (Ledger.order_table L)
  /\ (forall r', In r' (Ledger.order_table L') ->
        Ledger.order_number r' = Ledger.orderNumber o ->
        Ledger.is_new r' = false)
  /\ Forall2 (fun old new => Ledger.is_new new = true -> Ledger.is_new old = true)
             (Ledger.order_table L) (Ledger.order_table L').
Proof.
  intros Hsel L'.
  destruct (LedgerFacts.parse_known_order sku_dict item_accepted o L r Hsel)
    as (H1 & _ & H3 & H4 & H5 & H6).
  repeat split; assumption.
Qed.

Lemma known_order_only_loses_flag_witness :
  Ledger.item_table
    (fst (Ledger.parse_order LedgerSpec.no_revisions LedgerSpec.accepts_all
            (Samples.order "A1" "Ann" [Samples.item "PREM-100-MED" 1])
            {| Ledger.order_table := [Samples.row "A1" "Ann" true];
               Ledger.item_table :=
                 [Samples.item_of "A1" "PREM-100-MED" 1] |})) =
  [Samples.item_of "A1" "PREM-100-MED" 1].
Proof.
  exact (proj1 (known_order_only_loses_flag
                  LedgerSpec.no_revisions LedgerSpec.accepts_all
                  (Samples.order "A1" "Ann" [Samples.item "PREM-100-MED" 1])
                  {| Ledger.order_table := [Samples.row "A1" "Ann" true];
                     Ledger.item_table :=
                       [Samples.item_of "A1" "PREM-100-MED" 1] |}
                  (Samples.row "A1" "Ann" true) eq_refl)).
Defined.

(** X19. The items of an order that is no longer new are left out of the
    query that feeds the pick list: the query returns what it would
    return if those item rows were not in the table. *)
Theorem items_of_old_orders_not_picked (L : Ledger.ledger) (n : string) :
  (forall r, In r (Ledger.order_table L) ->
             Ledger.order_number r = n -> Ledger.is_new r = false) ->
  Ledger.grouped_new_items L =
  Ledger.grouped_new_items
    {| Ledger.order_table := Ledger.order_table L;
       Ledger.item_table :=
         filter (fun it => negb (String.eqb (Ledger.ord_num it) n))
                (Ledger.item_table L) |}.
Proof.
  intros H. unfold Ledger.grouped_new_items.
  now rewrite (LedgerFacts.flagged_items_not_new L n H).
Qed.

Lemma items_of_old_orders_not_picked_witness :
  Ledger.grouped_new_items
    {| Ledger.order_table := [Samples.row "A1" "Ann" false];
       Ledger.item_table := [Samples.item_of "A1" "PREM-100-MED" 1] |} = [].
Proof.
  refine (items_of_old_orders_not_picked
            {| Ledger.order_table := [Samples.row "A1" "Ann" false];
               Ledger.item_table := [Samples.item_of "A1" "PREM-100-MED" 1] |}
            "A1" _).
  intros r [<- | []] _. reflexivity.
Defined.



(** X21. Fetching the same orders a second time finds nothing new: after a
    fetch that ran to its end, a second fetch of the same orders runs to
    its end too, adds no item row, logs every order as not new, and
    leaves every row whose number was fetched with [is_new = 0]. *)
Theorem second_fetch_finds_nothing_new
        (sku_dict : string -> option string)
        (item_accepted : Ledger.item_row -> bool)
        (orders : list Ledger.api_order) (L : Ledger.ledger) :
  let first := Ledger.parse_awaiting_shipment_order_data
                 sku_dict item_accepted orders L [] in
  snd first = None ->
  let L1 := fst (fst first) in
  let second := Ledger.parse_awaiting_shipment_order_data
                  sku_dict item_accepted orders L1 [] in
  snd second = None
  /\ Ledger.item_table (fst (fst second)) = Ledger.item_table L1
  /\ snd (fst second) = map (RunSpec.old_entry sku_dict) orders
  /\ forall r, In r (Ledger.order_table (fst (fst second))) ->
               In (Ledger.order_number r) (map Ledger.orderNumber orders) ->
               Ledger.is_new r = false.
Proof.
  intros first Hnone L1 second.
  assert (Hknown : forall o, In o orders ->
                     Ledger.select_order (Ledger.orderNumber o) L1 <> None)
    by (apply FetchFacts.fetched_are_known; exact Hnone).
  unfold second.
  rewrite (FetchFacts.known_fetch sku_dict item_accepted orders L1 [] Hknown).
  cbn [fst snd Ledger.item_table Ledger.order_table app].
  repeat split.
  intros r Hin Hnum. apply in_map_iff in Hin. destruct Hin as (r0 & <- & _).
  unfold RunSpec.flag_fetched.
  destruct (existsb (String.eqb (Ledger.order_number r0))
                    (map Ledger.orderNumber orders)) eqn:E; [reflexivity|].
  unfold RunSpec.flag_fetched in Hnum. rewrite E in Hnum.
  apply FetchFacts.existsb_eqb_in in Hnum. congruence.
Qed.

Lemma second_fetch_finds_nothing_new_witness :
  snd (Ledger.parse_awaiting_shipment_order_data
         LedgerSpec.no_revisions LedgerSpec.accepts_all
         [Samples.order "A1" "Ann" [Samples.item "PREM-100-MED" 1]]
         (fst (fst (Ledger.parse_awaiting_shipment_order_data
                      LedgerSpec.no_revisions LedgerSpec.accepts_all
                      [Samples.order "A1" "Ann" [Samples.item "PREM-100-MED" 1]]
                      Samples.empty []))) []) = None.
Proof.
  exact (proj1 (second_fetch_finds_nothing_new
                  LedgerSpec.no_revisions LedgerSpec.accepts_all
                  [Samples.order "A1" "Ann" [Samples.item "PREM-100-MED" 1]]
                  Samples.empty eq_refl)).
Defined.

(** ** The reports *)

Module QuantityFacts.
Import Ledger.

Lemma filter_new_nil (p : order_row -> bool) (t : list order_row) :
  (forall r, In r t -> is_new r = false) ->
  filter (fun o => p o && is_new o) t = [].
Proof.
  induction t as [|r t IH]; intros H; simpl; [reflexivity|].
  rewrite (H r (or_introl eq_refl)), andb_false_r.
  apply IH. intros r' Hr'. apply H. now right.
Qed.

Lemma filter_new_quantity_nil (p : order_row -> bool) (b : bool)
      (t : list order_row) :
  (forall r, In r t -> is_new r = false) ->
  filter (fun o => p o && is_new o && b) t = [].
Proof.
  induction t as [|r t IH]; intros H; simpl; [reflexivity|].
  rewrite (H r (or_introl eq_refl)), andb_false_r. simpl.
  apply IH. intros r' Hr'. apply H. now right.
Qed.

Lemma filter_false (p : order_row -> bool) (t : list order_row) :
  filter (fun o => p o && false) t = [].
Proof.
  induction t as [|r t IH]; simpl; [reflexivity|].
  now rewrite andb_false_r.
Qed.

Lemma no_new_rows_no_items (L : ledger) :
  (forall r, In r (order_table L) -> is_new r = false) ->
  new_item_rows L = [] /\ multiple_quantity_rows L = [].
Proof.
  intros H. unfold new_item_rows, multiple_quantity_rows. split.
  - induction (item_table L) as [|it its IH]; simpl; [reflexivity|].
    now rewrite (filter_new_nil _ _ H), IH.
  - induction (item_table L) as [|it its IH]; simpl; [reflexivity|].
    now rewrite (filter_new_quantity_nil _ _ _ H), IH.
Qed.

Lemma selected_rows_nil (L : ledger) :
  (forall c, new_order_count c L <= 1) -> selected_rows L = [].
Proof.
  intros H. unfold selected_rows.
  replace (filter _ (order_table L)) with (@nil order_row); [reflexivity|].
  symmetry. induction (order_table L) as [|o t IH]; simpl; [reflexivity|].
  unfold in_temporary_table at 1.
  destruct (Nat.ltb_spec 1 (new_order_count (customer_name o) L)) as [Hlt|_].
  - specialize (H (customer_name o)). lia.
  - exact IH.
Qed.

Lemma no_new_rows_no_customers (L : ledger) (c : string) :
  (forall r, In r (order_table L) -> is_new r = false) ->
  new_order_count c L = 0.
Proof.
  intros H. unfold new_order_count.
  induction (order_table L) as [|r t IH]; simpl; [reflexivity|].
  rewrite (H r (or_introl eq_refl)). simpl.
  apply IH. intros r' Hr'. apply H. now right.
Qed.

End QuantityFacts.


(** X23. When no customer has more than one new order the report's
    dictionary is empty and the report holds, under its header, the
    marker NO CUSTOMERS WITH MULTIPLE ORDERS. *)
Theorem no_customers_marker_written (L : Ledger.ledger) (file : string) :
  (forall c, Ledger.new_order_count c L <= 1) ->
  Ledger.order_info_dict L = []
  /\ Ledger.customers_with_multiple_orders L file =
     file ++ PickList.nl ++ "CUSTOMERS WITH MORE THAN ONE ORDER:"
       ++ PickList.nl ++ PickList.nl ++ "NO CUSTOMERS WITH MULTIPLE ORDERS".
Proof.
  intros H.
  assert (Hd : Ledger.order_info_dict L = []).
  { unfold Ledger.order_info_dict.
    now rewrite (QuantityFacts.selected_rows_nil L H). }
  split; [exact Hd|].
  unfold Ledger.customers_with_multiple_orders, Ledger.customers_report.
  now rewrite Hd.
Qed.

Lemma no_customers_marker_written_witness :
  Ledger.order_info_dict
    {| Ledger.order_table :=
         [Samples.row "A1" "Ann" false; Samples.row "A2" "Ann" true;
          Samples.row "B1" "Bob" true];
       Ledger.item_table := [] |} = [].
Proof.
  refine (proj1 (no_customers_marker_written
                   {| Ledger.order_table :=
                        [Samples.row "A1" "Ann" false;
                         Samples.row "A2" "Ann" true;
                         Samples.row "B1" "Bob" true];
                      Ledger.item_table := [] |} "" _)).
  intros c. unfold Ledger.new_order_count. cbn -[String.eqb].
  destruct (String.eqb_spec "Ann" c) as [<- | ?]; cbn -[String.eqb].
  - apply Nat.le_refl.
  - destruct (String.eqb "Bob" c); cbn; repeat constructor.
Defined.

(** X24. The quantity report lists exactly the item rows with a quantity
    above one that belong to an order with [is_new = 1], each with the
    number and the customer of that order; without such a row it holds
    the marker under its header. *)
Theorem quantity_report_rows (L : Ledger.ledger) :
  (forall n c s q,
     In (n, c, s, q) (Ledger.multiple_quantity_rows L) <->
     exists it o,
       In it (Ledger.item_table L) /\ In o (Ledger.order_table L)
       /\ Ledger.ord_num it = Ledger.order_number o
       /\ Ledger.is_new o = true /\ (1 < Ledger.quantity it)%N
       /\ n = Ledger.order_number o /\ c = Ledger.customer_name o
       /\ s = Ledger.sku it /\ q = Ledger.quantity it)
  /\ ((forall it, In it (Ledger.item_table L) ->
                  (Ledger.quantity it <= 1)%N) ->
      forall file,
        Reports.orders_containing_an_item_having_a_quantity_greater_than_one
          L file =
        file ++ PickList.nl ++ "ORDERS WITH MORE THAN ONE ITEM QUANTITY:"
          ++ PickList.nl ++ PickList.nl
          ++ "NO ORDERS CONTAINING AN ITEM HAVING A QUANTITY GREATER THAN ONE").
Proof.
  split.
  - intros n c s q. unfold Ledger.multiple_quantity_rows.
    rewrite in_flat_map. split.
    + intros (it & Hit & Hin). apply in_map_iff in Hin.
      destruct Hin as (o & Heq & Ho). apply filter_In in Ho.
      destruct Ho as [Ho Hb].
      apply andb_true_iff in Hb. destruct Hb as [Hb Hq].
      apply andb_true_iff in Hb. destruct Hb as [Hn Hnew].
      apply String.eqb_eq in Hn. apply N.ltb_lt in Hq.
      inversion Heq; subst. exists it, o. repeat split; auto.
    + intros (it & o & Hit & Ho & Hn & Hnew & Hq & -> & -> & -> & ->).
      exists it. split; [exact Hit|].
      apply in_map_iff. exists o. split; [reflexivity|].
      apply filter_In. split; [exact Ho|].
      rewrite Hn, String.eqb_refl, Hnew. simpl. now apply N.ltb_lt.
  - intros H file.
    unfold Reports.orders_containing_an_item_having_a_quantity_greater_than_one,
      Reports.quantity_report.
    replace (Ledger.multiple_quantity_rows L)
      with (@nil (string * string * string * N)); [reflexivity|].
    symmetry. unfold Ledger.multiple_quantity_rows.
    induction (Ledger.item_table L) as [|it its IH]; simpl; [reflexivity|].
    rewrite IH by (intros it' Hit'; apply H; now right).
    rewrite app_nil_r.
    assert (Hq : N.ltb 1 (Ledger.quantity it) = false)
      by (apply N.ltb_ge, H; now left).
    rewrite Hq. now rewrite QuantityFacts.filter_false.
Qed.

(** ** Timestamps *)

Module DateFacts.
Import OrderDate DateSpec.

Lemma split_on_lacks (sep : ascii) (s : string) :
  lacks sep s = true -> split_on sep s = [s].
Proof.
  induction s as [|c s IH]; simpl; intros H; [reflexivity|].
  apply andb_true_iff in H. destruct H as [Hc Hs].
  apply negb_true_iff in Hc. now rewrite Hc, (IH Hs).
Qed.

Lemma split_on_field (sep : ascii) (s rest : string) :
  lacks sep s = true ->
  split_on sep (s ++ String sep rest) = s :: split_on sep rest.
Proof.
  induction s as [|c s IH]; simpl; intros H.
  - now rewrite Ascii.eqb_refl.
  - apply andb_true_iff in H. destruct H as [Hc Hs].
    apply negb_true_iff in Hc. now rewrite Hc, (IH Hs).
Qed.

Lemma lacks_append (c : ascii) (a b : string) :
  lacks c (a ++ b) = lacks c a && lacks c b.
Proof.
  induction a as [|x a IH]; simpl; [reflexivity|].
  now rewrite IH, andb_assoc.
Qed.

Lemma digits_lack (c : ascii) (s : string) :
  is_digit c = false -> all_digits s = true -> lacks c s = true.
Proof.
  intros Hc. induction s as [|x s IH]; simpl; intros H; [reflexivity|].
  apply andb_true_iff in H. destruct H as [Hx Hs].
  rewrite (IH Hs), andb_true_r. apply negb_true_iff.
  destruct (Ascii.eqb_spec x c) as [-> |]; [congruence | reflexivity].
Qed.

Lemma all_digits_string_of_uint (d : Decimal.uint) :
  all_digits (NilEmpty.string_of_uint d) = true.
Proof. induction d; simpl; auto. Qed.

Lemma all_digits_str (n : N) : all_digits (Py.str n) = true.
Proof. apply all_digits_string_of_uint. Qed.

Lemma all_digits_pad2 (n : N) : all_digits (pad2 n) = true.
Proof.
  unfold pad2. destruct (N.ltb n 10); simpl; apply all_digits_str.
Qed.

(** [int] reads a padded number as the number. *)
Lemma int_pad2 (n : N) : Py.int (pad2 n) = Ok n.
Proof.
  unfold pad2. destruct (N.ltb n 10); [|apply int_str].
  unfold Py.int, Py.str.
  change ("0" ++ NilEmpty.string_of_uint (N.to_uint n))
    with (String "0" (NilEmpty.string_of_uint (N.to_uint n))).
  cbn [NilEmpty.uint_of_string]. rewrite NilEmpty.usu.
  change (uint_of_char "0" (Some (N.to_uint n)))
    with (Some (Decimal.D0 (N.to_uint n))).
  cbv beta iota.
  change (N.of_uint (Decimal.D0 (N.to_uint n))) with (N.of_uint (N.to_uint n)).
  now rewrite DecimalN.Unsigned.of_to.
Qed.

Lemma lacks_str (c : ascii) (n : N) :
  is_digit c = false -> lacks c (Py.str n) = true.
Proof. intros H. apply digits_lack; [exact H | apply all_digits_str]. Qed.

Lemma lacks_pad2 (c : ascii) (n : N) :
  is_digit c = false -> lacks c (pad2 n) = true.
Proof. intros H. apply digits_lack; [exact H | apply all_digits_pad2]. Qed.

Lemma hour12_half_day (h : N) : hour12 (h + 12) = hour12 h.
Proof.
  unfold hour12.
  replace ((h + 12) mod 12)%N with (h mod 12)%N; [reflexivity|].
  symmetry. exact (N.Div0.mod_add h 1 12).
Qed.

End DateFacts.

(** X25. The conversion of [orderDate] reads back what the platform
    writes: from the text YYYY-MM-DDThh:mm:ss of a timestamp that
    [datetime] accepts, with or without a fraction behind a dot, it
    yields that timestamp. *)
Theorem order_datetime_round_trip (t : OrderDate.datetime) (fraction : string) :
  DateSpec.valid t ->
  OrderDate.order_datetime (DateSpec.iso_text t ++ "." ++ fraction) = Ok t
  /\ OrderDate.order_datetime (DateSpec.iso_text t) = Ok t.
Proof.
  intros Hv.
  set (dt := Py.str (OrderDate.year t) ++ "-" ++ OrderDate.pad2 (OrderDate.month t)
               ++ "-" ++ OrderDate.pad2 (OrderDate.day t)).
  set (tm := OrderDate.pad2 (OrderDate.hour t) ++ ":"
               ++ OrderDate.pad2 (OrderDate.minute t) ++ ":"
               ++ OrderDate.pad2 (OrderDate.second t)).
  assert (Hiso : DateSpec.iso_text t = dt ++ String "T" tm).
  { unfold DateSpec.iso_text, dt, tm. now rewrite !append_assoc. }
  assert (Hdt_T : DateSpec.lacks "T" dt = true).
  { unfold dt. rewrite !DateFacts.lacks_append.
    now rewrite DateFacts.lacks_str, !DateFacts.lacks_pad2. }
  assert (Htm_T : DateSpec.lacks "T" tm = true).
  { unfold tm. rewrite !DateFacts.lacks_append.
    now rewrite !DateFacts.lacks_pad2. }
  assert (Hdot : DateSpec.lacks "." (DateSpec.iso_text t) = true).
  { unfold DateSpec.iso_text. rewrite !DateFacts.lacks_append.
    now rewrite DateFacts.lacks_str, !DateFacts.lacks_pad2. }
  assert (Hdate : OrderDate.split_on "-" dt =
                  [Py.str (OrderDate.year t); OrderDate.pad2 (OrderDate.month t);
                   OrderDate.pad2 (OrderDate.day t)]).
  { unfold dt.
    change ("-" ++ OrderDate.pad2 (OrderDate.month t) ++ "-"
              ++ OrderDate.pad2 (OrderDate.day t))
      with (String "-" (OrderDate.pad2 (OrderDate.month t)
                          ++ String "-" (OrderDate.pad2 (OrderDate.day t)))).
    rewrite DateFacts.split_on_field by now apply DateFacts.lacks_str.
    rewrite DateFacts.split_on_field by now apply DateFacts.lacks_pad2.
    now rewrite DateFacts.split_on_lacks by now apply DateFacts.lacks_pad2. }
  assert (Htime : OrderDate.split_on ":" tm =
                  [OrderDate.pad2 (OrderDate.hour t);
                   OrderDate.pad2 (OrderDate.minute t);
                   OrderDate.pad2 (OrderDate.second t)]).
  { unfold tm.
    change (":" ++ OrderDate.pad2 (OrderDate.minute t) ++ ":"
              ++ OrderDate.pad2 (OrderDate.second t))
      with (String ":" (OrderDate.pad2 (OrderDate.minute t)
                          ++ String ":" (OrderDate.pad2 (OrderDate.second t)))).
    rewrite DateFacts.split_on_field by now apply DateFacts.lacks_pad2.
    rewrite DateFacts.split_on_field by now apply DateFacts.lacks_pad2.
    now rewrite DateFacts.split_on_lacks by now apply DateFacts.lacks_pad2. }
  assert (Hcore : forall text,
             hd "" (OrderDate.split_on "." text) = DateSpec.iso_text t ->
             OrderDate.order_datetime text = Ok t).
  { intros text Hhd. unfold OrderDate.order_datetime. rewrite Hhd, Hiso.
    rewrite (DateFacts.split_on_field "T" dt tm Hdt_T).
    rewrite (DateFacts.split_on_lacks "T" tm Htm_T).
    cbn [OrderDate.unpack2 bind]. rewrite Hdate.
    cbn [Normalizer.unpack3 bind]. rewrite Htime.
    cbn [Normalizer.unpack3 bind].
    rewrite int_str, !DateFacts.int_pad2. cbn [bind]. exact Hv. }
  split; apply Hcore.
  - change ("." ++ fraction) with (String "." fraction).
    now rewrite (DateFacts.split_on_field "." _ fraction Hdot).
  - now rewrite (DateFacts.split_on_lacks "." _ Hdot).
Qed.

Lemma order_datetime_round_trip_witness :
  OrderDate.order_datetime "2015-06-29T08:46:27.0000000" =
  Ok {| OrderDate.year := 2015; OrderDate.month := 6; OrderDate.day := 29;
        OrderDate.hour := 8; OrderDate.minute := 46; OrderDate.second := 27 |}.
Proof.
  exact (proj1 (order_datetime_round_trip
                  {| OrderDate.year := 2015; OrderDate.month := 6;
                     OrderDate.day := 29; OrderDate.hour := 8;
                     OrderDate.minute := 46; OrderDate.second := 27 |}
                  "0000000" eq_refl)).
Defined.

(** X26. The log prints an order's time on the twelve-hour clock without
    AM or PM: a timestamp of the morning and the timestamp twelve hours
    later, both accepted by [datetime] and different, are printed
    alike. *)
Theorem log_time_hides_half_days (t : OrderDate.datetime) :
  DateSpec.valid t ->
  (OrderDate.hour t < 12)%N ->
  DateSpec.valid (DateSpec.half_a_day_later t)
  /\ DateSpec.half_a_day_later t <> t
  /\ OrderDate.strftime_log (DateSpec.half_a_day_later t) =
     OrderDate.strftime_log t.
Proof.
  intros Hv Hh. split; [| split].
  - unfold DateSpec.valid, OrderDate.make_datetime in *.
    unfold DateSpec.half_a_day_later.
    cbn [OrderDate.year OrderDate.month OrderDate.day OrderDate.hour
         OrderDate.minute OrderDate.second].
    match type of Hv with
    | (if ?c then _ else _) = _ => destruct c eqn:E; [|discriminate Hv]
    end.
    repeat (apply andb_true_iff in E; destruct E as [E ?]).
    repeat match goal with
           | H : _ = true |- _ => rewrite H; clear H
           end.
    assert (Hle : N.leb (OrderDate.hour t + 12) 23 = true)
      by (apply N.leb_le; lia).
    now rewrite Hle.
  - intros Heq. apply (f_equal OrderDate.hour) in Heq.
    unfold DateSpec.half_a_day_later in Heq. cbn in Heq. lia.
  - unfold OrderDate.strftime_log, DateSpec.half_a_day_later.
    cbn [OrderDate.year OrderDate.month OrderDate.day OrderDate.hour
         OrderDate.minute OrderDate.second].
    now rewrite DateFacts.hour12_half_day.
Qed.

Lemma log_time_hides_half_days_witness :
  OrderDate.strftime_log
    {| OrderDate.year := 2015; OrderDate.month := 6; OrderDate.day := 29;
       OrderDate.hour := 20; OrderDate.minute := 46; OrderDate.second := 27 |} =
  OrderDate.strftime_log
    {| OrderDate.year := 2015; OrderDate.month := 6; OrderDate.day := 29;
       OrderDate.hour := 8; OrderDate.minute := 46; OrderDate.second := 27 |}.
Proof.
  refine (proj2 (proj2 (log_time_hides_half_days
                   {| OrderDate.year := 2015; OrderDate.month := 6;
                      OrderDate.day := 29; OrderDate.hour := 8;
                      OrderDate.minute := 46; OrderDate.second := 27 |}
                   eq_refl _))).
  reflexivity.
Defined.

(** X27. An [orderDate] whose part in front of the first dot has no [T]
    cannot be taken apart into date and time: the conversion raises
    ValueError. *)
Theorem order_date_without_time_rejected (orderDate : string) :
  DateSpec.lacks "T" (hd "" (OrderDate.split_on "." orderDate)) = true ->
  OrderDate.order_datetime orderDate = Raise ValueError.
Proof.
  intros H. unfold OrderDate.order_datetime.
  now rewrite (DateFacts.split_on_lacks "T" _ H).
Qed.

Lemma order_date_without_time_rejected_witness :
  OrderDate.order_datetime "2015-06-29.000" = Raise ValueError.
Proof. exact (order_date_without_time_rejected "2015-06-29.000" eq_refl). Defined.

(** ** The refresh and the loop over the stores *)

Module BatchFacts.
Import Refresh.

Lemma all_success_true_iff (responses : list (result json)) :
  all_success responses = Ok true
  <-> Forall (fun r => r = Ok (JString "true")) responses.
Proof.
  induction responses as [|r rest IH]; simpl.
  - split; [constructor | reflexivity].
  - split.
    + destruct r as [v | e]; simpl; [|discriminate].
      destruct v as [s | b | | n]; simpl; try discriminate.
      destruct (String.eqb_spec s "true") as [-> | Hne]; [|discriminate].
      intros H. constructor; [reflexivity | now apply IH].
    + intros H. inversion H as [|? ? Hr Hrest]; subst. simpl.
      now apply IH.
Qed.

(** Without an exception the chain of [and] is a truth value. *)
Lemma all_success_values (values : list json) :
  all_success (map Ok values) =
  Ok (forallb is_true_text values).
Proof.
  induction values as [|v vs IH]; simpl; [reflexivity|].
  destruct (is_true_text v); [exact IH | reflexivity].
Qed.

End BatchFacts.

(** X28. [refresh_stores] returns True, after sleeping, exactly when each
    of the six responses has the string ['true'] under [success].  When
    the six can be read and one of them holds something else, a JSON
    boolean included, it returns None and not the False its docstring
    names; in both of these cases [main] leaves every store as it is
    unless the result is True. *)
Theorem refresh_stores_outcomes
        (a b c d e f : result Refresh.json) :
  (Refresh.refresh_stores a b c d e f = (Refresh.PyTrue, true)
   <-> Forall (fun r => r = Ok (Refresh.JString "true")) [a; b; c; d; e; f])
  /\ (forall va vb vc vd ve vf,
        a = Ok va -> b = Ok vb -> c = Ok vc ->
        d = Ok vd -> e = Ok ve -> f = Ok vf ->
        forallb Refresh.is_true_text [va; vb; vc; vd; ve; vf] = false ->
        Refresh.refresh_stores a b c d e f = (Refresh.PyNone, false))
  /\ (forall sku_dict item_accepted strftime stores,
        ~ Forall (fun r => r = Ok (Refresh.JString "true")) [a; b; c; d; e; f] ->
        Main.main sku_dict item_accepted strftime
                  (fst (Refresh.refresh_stores a b c d e f)) stores =
        (stores, Main.Completed)).
Proof.
  assert (Hiff : Refresh.refresh_stores a b c d e f = (Refresh.PyTrue, true)
                 <-> Forall (fun r => r = Ok (Refresh.JString "true"))
                            [a; b; c; d; e; f]).
  { rewrite <- BatchFacts.all_success_true_iff. unfold Refresh.refresh_stores.
    destruct (Refresh.all_success [a; b; c; d; e; f]) as [[|] | ex];
      split; intros H; try reflexivity; try discriminate H. }
  split; [exact Hiff|]. split.
  - intros va vb vc vd ve vf -> -> -> -> -> -> Hall.
    unfold Refresh.refresh_stores.
    change [Ok va; Ok vb; Ok vc; Ok vd; Ok ve; Ok vf]
      with (map (@Ok Refresh.json) [va; vb; vc; vd; ve; vf]).
    now rewrite BatchFacts.all_success_values, Hall.
  - intros sku_dict item_accepted strftime stores Hnot.
    unfold Main.main, Refresh.refresh_stores.
    destruct (Refresh.all_success [a; b; c; d; e; f]) as [[|] | ex] eqn:Ea;
      try reflexivity.
    exfalso. apply Hnot. now apply BatchFacts.all_success_true_iff.
Qed.

(** X29. A store none of whose orders is new after the fetch gets a pick
    list without a line and both reports with their markers: the file
    holds the two headers, each followed by its marker, and nothing
    else. *)
Theorem store_without_new_orders
        (sku_dict : string -> option string)
        (item_accepted : Ledger.item_row -> bool)
        (strftime : string -> string) (s : Main.store) :
  let fetched :=
    Ledger.parse_awaiting_shipment_order_data
      sku_dict item_accepted (Main.awaiting_shipment_orders_list s)
      (Main.tables s) [] in
  snd fetched = None ->
  (forall r, In r (Ledger.order_table (fst (fst fetched))) ->
             Ledger.is_new r = false) ->
  snd (Main.run_store sku_dict item_accepted strftime s) = Main.Completed
  /\ Main.orders_txt (fst (Main.run_store sku_dict item_accepted strftime s)) =
     PickList.nl ++ "CUSTOMERS WITH MORE THAN ONE ORDER:"
       ++ PickList.nl ++ PickList.nl ++ "NO CUSTOMERS WITH MULTIPLE ORDERS"
       ++ PickList.nl ++ "ORDERS WITH MORE THAN ONE ITEM QUANTITY:"
       ++ PickList.nl ++ PickList.nl
       ++ "NO ORDERS CONTAINING AN ITEM HAVING A QUANTITY GREATER THAN ONE".
Proof.
  intros fetched Hnone Hold. unfold Main.run_store. fold fetched.
  destruct fetched as [[L log] ex]. cbn [fst snd] in *. subst ex.
  destruct (QuantityFacts.no_new_rows_no_items L Hold) as [Hitems Hrows].
  unfold Ledger.clean_and_normalize_order_data, Ledger.grouped_new_items.
  rewrite Hitems. cbn.
  assert (Hd : Ledger.order_info_dict L = []).
  { unfold Ledger.order_info_dict.
    rewrite (QuantityFacts.selected_rows_nil L); [reflexivity|].
    intros c. rewrite (QuantityFacts.no_new_rows_no_customers L c Hold). lia. }
  unfold Reports.orders_containing_an_item_having_a_quantity_greater_than_one,
    Reports.quantity_report, Ledger.customers_with_multiple_orders,
    Ledger.customers_report.
  rewrite Hd, Hrows. split; [reflexivity|].
  cbn. reflexivity.
Qed.

Lemma store_without_new_orders_witness :
  snd (Main.run_store LedgerSpec.no_revisions LedgerSpec.accepts_all
         (fun d => d)
         {| Main.store_name := "etsy";
            Main.awaiting_shipment_orders_list :=
              [Samples.order "A1" "Ann" [Samples.item "PREM-100-MED" 1]];
            Main.tables :=
              {| Ledger.order_table := [Samples.row "A1" "Ann" true];
                 Ledger.item_table :=
                   [Samples.item_of "A1" "PREM-100-MED" 1] |};
            Main.orders_txt := "stale";
            Main.log_txt := "stale";
            Main.generated_at := "01/06/2023 09:00:00 AM" |}) = Main.Completed.
Proof.
  refine (proj1 (store_without_new_orders
                   LedgerSpec.no_revisions LedgerSpec.accepts_all (fun d => d)
                   {| Main.store_name := "etsy";
                      Main.awaiting_shipment_orders_list :=
                        [Samples.order "A1" "Ann" [Samples.item "PREM-100-MED" 1]];
                      Main.tables :=
                        {| Ledger.order_table := [Samples.row "A1" "Ann" true];
                           Ledger.item_table :=
                             [Samples.item_of "A1" "PREM-100-MED" 1] |};
                      Main.orders_txt := "stale";
                      Main.log_txt := "stale";
                      Main.generated_at := "01/06/2023 09:00:00 AM" |}
                   eq_refl _)).
  intros r [<- | []]. reflexivity.
Defined.

(** X30. The loop over the stores ends at the first store that does not
    complete, whether a database error reached the handler or another
    exception left the program: the stores in front of it have been
    processed, the store itself is left as its calls left it, and the
    stores behind it are not touched. *)
Theorem batch_stops_at_first_failure
        (sku_dict : string -> option string)
        (item_accepted : Ledger.item_row -> bool)
        (strftime : string -> string)
        (before after : list Main.store) (s : Main.store) :
  Forall (fun b => snd (Main.run_store sku_dict item_accepted strftime b)
                   = Main.Completed) before ->
  snd (Main.run_store sku_dict item_accepted strftime s) <> Main.Completed ->
  Main.run_stores sku_dict item_accepted strftime (before ++ s :: after)%list =
  ((map (fun b => fst (Main.run_store sku_dict item_accepted strftime b)) before
      ++ fst (Main.run_store sku_dict item_accepted strftime s) :: after)%list,
   snd (Main.run_store sku_dict item_accepted strftime s)).
Proof.
  intros Hbefore Hs. induction Hbefore as [|b before Hb _ IH].
  - cbn [app map Main.run_stores].
    destruct (Main.run_store sku_dict item_accepted strftime s) as [s' e].
    cbn [fst snd] in *. destruct e; [contradiction | reflexivity | reflexivity].
  - cbn [app map Main.run_stores].
    destruct (Main.run_store sku_dict item_accepted strftime b) as [b' e].
    cbn [fst snd] in *. subst e. now rewrite IH.
Qed.

Lemma batch_stops_at_first_failure_witness :
  Main.run_stores LedgerSpec.no_revisions LedgerSpec.accepts_all (fun d => d)
    [SampleStores.store_with "amazon" [];
     SampleStores.store_with "ebay"
       [Samples.order "E1" "Eve" [Samples.item "PREM-100-XXL" 1]];
     SampleStores.store_with "etsy"
       [Samples.order "T1" "Tom" [Samples.item "PREM-100-MED" 1]]] =
  ([fst (Main.run_store LedgerSpec.no_revisions LedgerSpec.accepts_all
           (fun d => d) (SampleStores.store_with "amazon" []));
    fst (Main.run_store LedgerSpec.no_revisions LedgerSpec.accepts_all
           (fun d => d)
           (SampleStores.store_with "ebay"
              [Samples.order "E1" "Eve" [Samples.item "PREM-100-XXL" 1]]));
    SampleStores.store_with "etsy"
      [Samples.order "T1" "Tom" [Samples.item "PREM-100-MED" 1]]],
   snd (Main.run_store LedgerSpec.no_revisions LedgerSpec.accepts_all
          (fun d => d)
          (SampleStores.store_with "ebay"
             [Samples.order "E1" "Eve" [Samples.item "PREM-100-XXL" 1]]))).
Proof.
  refine (batch_stops_at_first_failure
            LedgerSpec.no_revisions LedgerSpec.accepts_all (fun d => d)
            [SampleStores.store_with "amazon" []]
            [SampleStores.store_with "etsy"
               [Samples.order "T1" "Tom" [Samples.item "PREM-100-MED" 1]]]
            (SampleStores.store_with "ebay"
               [Samples.order "E1" "Eve" [Samples.item "PREM-100-XXL" 1]])
            _ _).
  - constructor; [reflexivity | constructor].
  - vm_compute. discriminate.
Defined.
